(** * CustomOperations: authorization filters in front of a FHIR store

    A shallow embedding of [src/CustomOperations/src/functions/CustomOperations.ts].

    The three HTTP handlers ([Patient], [Device], [Observation]) resolve the
    caller to a practitioner and a practitioner role, fetch whole resource
    collections from the FHIR server and narrow them down with a cascade of
    filters.  The embedding keeps the JavaScript behaviour that matters for
    the filters:

    - every FHIR property the code reads is optional in [fhir/r4], so it is an
      [option] here, and reading a property of [undefined] throws a
      [TypeError];
    - [===] on two possibly-undefined strings is equality of options
      ([undefined === undefined] holds);
    - [s.endsWith(x)] converts [x] to a string first ([undefined] becomes
      the text "undefined");
    - [&&], [||] and [Array.prototype.some] short-circuit.

    The two external collaborators, [jwtDecode] (package jwt-decode) and the
    HTTP round trip [fetch(...).json()], are section variables. *)

From Stdlib Require Import String Ascii List Bool Arith Lia.
From ExtLib Require Import Structures.Monad Structures.MonadExc Data.Monads.EitherMonad.
Import ListNotations.
Import MonadNotation.
Local Open Scope monad_scope.
Local Open Scope string_scope.

(** ** Exceptions and the evaluation monad *)

Inductive exn : Type :=
| TypeError          (* property read or method call on undefined *)
| InvalidTokenError  (* thrown by jwtDecode *)
| FetchFailed.       (* fetch rejected, or the body was not JSON *)

(** A JavaScript computation either returns a value or throws. *)
Definition js (A : Type) : Type := sum exn A.

Abbreviation Ret := (@inr exn _) (only parsing).
Abbreviation Throw := (@inl exn _) (only parsing).

#[global] Instance Monad_js : Monad js := Monad_either exn.
#[global] Instance Exc_js : MonadExc exn js := Exception_either exn.

(** [o.m(...)]: calling a method on [undefined] throws. *)
Definition receiver {A : Type} (o : option A) : js A :=
  match o with
  | Some a => ret a
  | None => raise TypeError
  end.

(** [o.f]: reading property [f] of [undefined] throws. *)
Definition field {A B : Type} (o : option A) (f : A -> B) : js B :=
  a <- receiver o ;; ret (f a).

(** [o?.f] for an optional property [f]: [undefined] when [o] is. *)
Definition optChain {A B : Type} (o : option A) (f : A -> option B) : option B :=
  match o with
  | Some a => f a
  | None => None
  end.

(** [a && b] and [a || b] on booleans, the right operand evaluated on demand. *)
Definition andThen (a b : js bool) : js bool :=
  x <- a ;; if (x : bool) then b else ret false.

Definition orElse (a b : js bool) : js bool :=
  x <- a ;; if (x : bool) then ret true else b.

Infix "&&&" := andThen (at level 40, left associativity).
Infix "|||" := orElse (at level 50, left associativity).

(** ** Strings *)

Module JsString.

(** [ToString] on [string | undefined]. *)
Definition ToString (o : option string) : string :=
  match o with
  | Some s => s
  | None => "undefined"
  end.

(** [ToBoolean] on [string | null]: only a non-empty string is truthy. *)
Definition ToBoolean (o : option string) : bool :=
  match o with
  | Some (String _ _) => true
  | _ => false
  end.

(** [a === b] on [string | undefined]. *)
Definition strictEq (a b : option string) : bool :=
  match a, b with
  | Some x, Some y => String.eqb x y
  | None, None => true
  | _, _ => false
  end.

(** [s.endsWith(t)]: [t] occurs at the very end of [s]. *)
Fixpoint endsWith (s t : string) : bool :=
  if String.eqb s t then true
  else match s with
       | EmptyString => false
       | String _ s' => endsWith s' t
       end.

(** [r.endsWith(x)] where the receiver may be undefined and the argument
    is converted with [ToString]. *)
Definition callEndsWith (r : option string) (x : option string) : js bool :=
  s <- receiver r ;; ret (endsWith s (ToString x)).

End JsString.
Import JsString.

(** ** Arrays *)

Module Array.

(** [l.some(f)]: stops at the first element for which [f] is true. *)
Fixpoint some {A : Type} (f : A -> js bool) (l : list A) : js bool :=
  match l with
  | [] => ret false
  | x :: l' => b <- f x ;; if (b : bool) then ret true else some f l'
  end.

(** [l.filter(f)]: [f] runs on every element, in order. *)
Fixpoint filter {A : Type} (f : A -> js bool) (l : list A) : js (list A) :=
  match l with
  | [] => ret []
  | x :: l' =>
      b <- f x ;;
      r <- filter f l' ;;
      ret (if (b : bool) then x :: r else r)
  end.

End Array.

(** ** FHIR R4 data, as far as the handlers read it *)

Record Reference : Type := { ref_reference : option string }.

Record Identifier : Type := { ident_value : option string }.

Record Coding : Type := { coding_code : option string }.

Record CodeableConcept : Type := { cc_coding : option (list Coding) }.

Record fhirPatient : Type := {
  pat_id : option string;
  pat_managingOrganization : option Reference
}.

Record fhirDevice : Type := {
  dev_id : option string;
  dev_patient : option Reference;
  dev_owner : option Reference
}.

Record fhirObservation : Type := {
  obs_id : option string;
  obs_subject : option Reference;
  obs_device : option Reference
}.

Record Practitioner : Type := {
  prac_id : option string;
  prac_identifier : option (list Identifier)
}.

Record PractitionerRole : Type := {
  role_id : option string;
  role_practitioner : option Reference;
  role_organization : option Reference
}.

Record ConsentProvisionActor : Type := {
  actor_role : CodeableConcept;
  actor_reference : Reference
}.

Record ConsentProvision : Type := {
  prov_type : option string;
  prov_actor : option (list ConsentProvisionActor)
}.

Record Consent : Type := {
  consent_id : option string;
  consent_patient : option Reference;
  consent_provision : option ConsentProvision
}.

(** The union [FhirResource]; the constructor is the [resourceType] tag. *)
Inductive FhirResource : Type :=
| RPatient (p : fhirPatient)
| RDevice (d : fhirDevice)
| RObservation (o : fhirObservation)
| RPractitioner (p : Practitioner)
| RPractitionerRole (r : PractitionerRole)
| RConsent (c : Consent)
| ROperationOutcome (id : option string).

Definition resourceType (r : FhirResource) : string :=
  match r with
  | RPatient _ => "Patient"
  | RDevice _ => "Device"
  | RObservation _ => "Observation"
  | RPractitioner _ => "Practitioner"
  | RPractitionerRole _ => "PractitionerRole"
  | RConsent _ => "Consent"
  | ROperationOutcome _ => "OperationOutcome"
  end.

Definition resource_id (r : FhirResource) : option string :=
  match r with
  | RPatient p => pat_id p
  | RDevice d => dev_id d
  | RObservation o => obs_id o
  | RPractitioner p => prac_id p
  | RPractitionerRole r => role_id r
  | RConsent c => consent_id c
  | ROperationOutcome i => i
  end.

(** [T extends FhirResource]: the tag [T['resourceType']], the upcast and the
    view [r as T] of a resource carrying that tag. *)
Class FhirKind (T : Type) : Type := {
  endpoint : string;
  upcast : T -> FhirResource;
  downcast : FhirResource -> option T
}.

#[global] Instance Kind_Patient : FhirKind fhirPatient :=
  {| endpoint := "Patient"; upcast := RPatient;
     downcast := fun r => match r with RPatient p => Some p | _ => None end |}.

#[global] Instance Kind_Device : FhirKind fhirDevice :=
  {| endpoint := "Device"; upcast := RDevice;
     downcast := fun r => match r with RDevice d => Some d | _ => None end |}.

#[global] Instance Kind_Observation : FhirKind fhirObservation :=
  {| endpoint := "Observation"; upcast := RObservation;
     downcast := fun r => match r with RObservation o => Some o | _ => None end |}.

#[global] Instance Kind_Practitioner : FhirKind Practitioner :=
  {| endpoint := "Practitioner"; upcast := RPractitioner;
     downcast := fun r => match r with RPractitioner p => Some p | _ => None end |}.

#[global] Instance Kind_PractitionerRole : FhirKind PractitionerRole :=
  {| endpoint := "PractitionerRole"; upcast := RPractitionerRole;
     downcast := fun r => match r with RPractitionerRole p => Some p | _ => None end |}.

#[global] Instance Kind_Consent : FhirKind Consent :=
  {| endpoint := "Consent"; upcast := RConsent;
     downcast := fun r => match r with RConsent c => Some c | _ => None end |}.

Record BundleEntry : Type := {
  entry_fullUrl : option string;
  entry_resource : option FhirResource;
  entry_search_mode : option string
}.

(** A JSON body read [as Bundle]: nothing is known about it before the tag
    is checked, so the tag and the entry array are optional. *)
Record Bundle : Type := {
  bundle_resourceType : option string;
  bundle_type : option string;
  bundle_entry : option (list BundleEntry)
}.

(** ** HTTP *)

(** [req_authorization] is [request.headers.get('Authorization')]. *)
Record HttpRequest : Type := {
  req_url : string;
  req_authorization : option string
}.

(** [resp_body] is the bundle that [JSON.stringify] serialises. *)
Record HttpResponseInit : Type := {
  resp_status : option nat;
  resp_headers : list (string * string);
  resp_body : option Bundle
}.

Definition statusOnly (n : nat) : HttpResponseInit :=
  {| resp_status := Some n; resp_headers := []; resp_body := None |}.

Definition jsonBody (b : Bundle) : HttpResponseInit :=
  {| resp_status := None;
     resp_headers := [("content-type", "application/json")];
     resp_body := Some b |}.

Record JwtCustomPayload : Type := { oid : option string }.

Definition fhirURL : string :=
  "https://b2324health-fhirdata.fhir.azurehealthcareapis.com".

(** ** The pure helpers *)

(** takes a FhirResourceArray and wraps it in a Bundle *)
Definition getSearchBundle (ressources : list FhirResource) : Bundle :=
  {| bundle_resourceType := Some "Bundle";
     bundle_type := Some "searchset";
     bundle_entry := Some (map (fun ressource =>
       {| entry_fullUrl := Some (fhirURL ++ "/" ++ resourceType ressource ++ "/"
                                   ++ ToString (resource_id ressource));
          entry_resource := Some ressource;
          entry_search_mode := Some "match" |}) ressources) |}.

Definition isPatientInPractitionerOrganization
    (patient : fhirPatient) (practitionerRole : PractitionerRole) : js bool :=
  let lhs := optChain (pat_managingOrganization patient) ref_reference in
  rhs <- field (role_organization practitionerRole) ref_reference ;;
  ret (strictEq lhs rhs).

(** The callback of [consents.some] in [isPractitionerRolePermitted]. *)
Definition consentPermits (practitionerRole : PractitionerRole)
    (device : fhirDevice) (consent : Consent) : js bool :=
  (actors <- field (consent_provision consent) prov_actor ;;
   actors <- receiver actors ;;
   Array.some (fun actor =>
     codings <- receiver (cc_coding (actor_role actor)) ;;
     Array.some (fun coding =>
       ret (strictEq (coding_code coding) (Some "GRANTEE"))) codings) actors)
  &&& (ty <- field (consent_provision consent) prov_type ;;
       ret (strictEq ty (Some "permit")))
  &&& (actors <- field (consent_provision consent) prov_actor ;;
       actors <- receiver actors ;;
       Array.some (fun actor =>
         callEndsWith (ref_reference (actor_reference actor))
                      (role_id practitionerRole)
         &&& (cp <- field (consent_patient consent) ref_reference ;;
              dp <- field (dev_patient device) ref_reference ;;
              ret (strictEq cp dp))) actors).

Definition isPractitionerRolePermitted (consents : list Consent)
    (practitionerRole : PractitionerRole) (device : fhirDevice) : js bool :=
  Array.some (consentPermits practitionerRole device) consents.

(** ** The three filter stages

    The handlers compute these as local constants; [Device] and
    [Observation] repeat the same expressions. *)

Definition filteredPatients (patients : list fhirPatient)
    (practitionerRole : PractitionerRole) : js (list fhirPatient) :=
  Array.filter (fun patient =>
    isPatientInPractitionerOrganization patient practitionerRole) patients.

(** The callback of the device filter. *)
Definition deviceVisible (filteredPatients : list fhirPatient)
    (consents : list Consent) (practitionerRole : PractitionerRole)
    (device : fhirDevice) : js bool :=
  Array.some (fun patient =>
    r <- field (dev_patient device) ref_reference ;;
    callEndsWith r (pat_id patient)) filteredPatients
  ||| ((o <- field (dev_owner device) ref_reference ;;
        g <- field (role_organization practitionerRole) ref_reference ;;
        ret (strictEq o g))
       &&& isPractitionerRolePermitted consents practitionerRole device).

Definition filteredDevices (filteredPatients : list fhirPatient)
    (consents : list Consent) (practitionerRole : PractitionerRole)
    (devices : list fhirDevice) : js (list fhirDevice) :=
  Array.filter (deviceVisible filteredPatients consents practitionerRole) devices.

(** The callback of the observation filter. *)
Definition observationVisible (filteredPatients : list fhirPatient)
    (filteredDevices : list fhirDevice) (observation : fhirObservation) : js bool :=
  Array.some (fun patient =>
    r <- field (obs_subject observation) ref_reference ;;
    callEndsWith r (pat_id patient)) filteredPatients
  ||| Array.some (fun device =>
    r <- field (obs_device observation) ref_reference ;;
    callEndsWith r (dev_id device)) filteredDevices.

Definition filteredObservations (filteredPatients : list fhirPatient)
    (filteredDevices : list fhirDevice) (observations : list fhirObservation)
    : js (list fhirObservation) :=
  Array.filter (observationVisible filteredPatients filteredDevices) observations.

(** ** Identity resolution, fetching and the handlers *)

Section Handlers.

(** [jwtDecode] of package jwt-decode: decodes the claims of a token
    without checking its signature, or throws. *)
Variable jwtDecode : string -> js JwtCustomPayload.

(** [(await fetch(url, {method: 'GET', headers: {Authorization}})).json()]. *)
Variable fetchJson : string -> option string -> js Bundle.

(** extracts token and user id from Authorization header *)
Definition getAuthTokenAndUserId (request : HttpRequest)
    : js (option string * option string * option HttpResponseInit) :=
  if negb (ToBoolean (req_authorization request)) then
    ret (None, None, Some (statusOnly 401))
  else
    let authToken := req_authorization request in
    payload <- jwtDecode (ToString authToken) ;;
    ret (authToken, oid payload, None).

(** takes a FhirResource Type and sends a fetch request to the fhir server *)
Definition getRessources (T : Type) `{FhirKind T} (authToken : option string)
    : js (option (list T) * option HttpResponseInit) :=
  ressourceBody <- fetchJson (fhirURL ++ "/" ++ endpoint (T := T)) authToken ;;
  if negb (strictEq (bundle_resourceType ressourceBody) (Some "Bundle")) then
    ret (None, Some (statusOnly 500))
  else
    entries <- receiver (bundle_entry ressourceBody) ;;
    kept <- Array.filter (fun entry =>
              tag <- field (entry_resource entry) resourceType ;;
              ret (String.eqb tag (endpoint (T := T)))) entries ;;
    let ressources :=
      flat_map (fun entry =>
        match optChain (entry_resource entry) downcast with
        | Some t => [t]
        | None => []
        end) kept in
    ret (Some ressources, None).

Definition getUserPractitionerRole (authToken : option string)
    (practitioner : option Practitioner)
    : js (option PractitionerRole * option HttpResponseInit) :=
  '(practitionerRoles, fetchError) <- getRessources PractitionerRole authToken ;;
  match fetchError with
  | Some e => ret (None, Some e)
  | None =>
      practitionerRoles <- receiver practitionerRoles ;;
      filteredPractitioners <- Array.filter (fun practitionerRole =>
        r <- field (role_practitioner practitionerRole) ref_reference ;;
        r <- receiver r ;;
        id <- field practitioner prac_id ;;
        ret (endsWith r ("Practitioner/" ++ ToString id))) practitionerRoles ;;
      if negb (Nat.eqb (length filteredPractitioners) 1) then
        ret (None, Some (statusOnly 500))
      else ret (nth_error filteredPractitioners 0, None)
  end.

Definition getUserPractitioner (authToken : option string) (userId : option string)
    : js (option Practitioner * option HttpResponseInit) :=
  '(practitioners, fetchError) <- getRessources Practitioner authToken ;;
  match fetchError with
  | Some e => ret (None, Some e)
  | None =>
      practitioners <- receiver practitioners ;;
      filteredPractitioners <- Array.filter (fun practitioner =>
        match prac_identifier practitioner with
        | Some identifiers =>
            Array.some (fun identifier =>
              ret (strictEq (ident_value identifier) userId)) identifiers
        | None => ret false
        end) practitioners ;;
      if negb (Nat.eqb (length filteredPractitioners) 1) then
        ret (None, Some (statusOnly 403))
      else ret (nth_error filteredPractitioners 0, None)
  end.

(** The part the three handlers share: credential, practitioner, role.
    The continuation [k] is the rest of the handler body. *)
Definition withPractitionerRole (request : HttpRequest)
    (k : option string -> PractitionerRole -> js HttpResponseInit)
    : js HttpResponseInit :=
  '(authToken, userId, unauthorizedError) <- getAuthTokenAndUserId request ;;
  match unauthorizedError with
  | Some e => ret e
  | None =>
      '(practitioner, fetchError) <- getUserPractitioner authToken userId ;;
      match fetchError with
      | Some e => ret e
      | None =>
          '(practitionerRole, fetchError) <-
            getUserPractitionerRole authToken practitioner ;;
          match fetchError with
          | Some e => ret e
          | None =>
              practitionerRole <- receiver practitionerRole ;;
              k authToken practitionerRole
          end
      end
  end.

(** [[x, fetchError] = await getRessources(...); if (fetchError != null) return fetchError;] *)
Definition fetchOrReturn {T : Type} `{FhirKind T} (authToken : option string)
    (k : list T -> js HttpResponseInit) : js HttpResponseInit :=
  '(ressources, fetchError) <- getRessources T authToken ;;
  match fetchError with
  | Some e => ret e
  | None => ressources <- receiver ressources ;; k ressources
  end.

Definition Patient (request : HttpRequest) : js HttpResponseInit :=
  withPractitionerRole request (fun authToken practitionerRole =>
    fetchOrReturn authToken (fun patients =>
      filteredPatients <- filteredPatients patients practitionerRole ;;
      let patientBundle := getSearchBundle (map upcast filteredPatients) in
      ret (jsonBody patientBundle))).

Definition Device (request : HttpRequest) : js HttpResponseInit :=
  withPractitionerRole request (fun authToken practitionerRole =>
    fetchOrReturn authToken (fun patients =>
    fetchOrReturn authToken (fun consents =>
    fetchOrReturn authToken (fun devices =>
      filteredPatients <- filteredPatients patients practitionerRole ;;
      filteredDevices <-
        filteredDevices filteredPatients consents practitionerRole devices ;;
      let deviceBundle := getSearchBundle (map upcast filteredDevices) in
      ret (jsonBody deviceBundle))))).

Definition Observation (request : HttpRequest) : js HttpResponseInit :=
  withPractitionerRole request (fun authToken practitionerRole =>
    fetchOrReturn authToken (fun patients =>
    fetchOrReturn authToken (fun consents =>
    fetchOrReturn authToken (fun devices =>
    fetchOrReturn authToken (fun observations =>
      filteredPatients <- filteredPatients patients practitionerRole ;;
      filteredDevices <-
        filteredDevices filteredPatients consents practitionerRole devices ;;
      filteredObservations <-
        filteredObservations filteredPatients filteredDevices observations ;;
      let observationBundle := getSearchBundle (map upcast filteredObservations) in
      ret (jsonBody observationBundle)))))).

End Handlers.


(** * What the specification talks about

    The predicates below are written from the wording of the specification,
    over the same optional data; the theorems compare them with the code. *)

(** The reference strings the membership predicate compares; [None] when the
    reference is absent. *)
Definition managingOrganizationRef (patient : fhirPatient) : option string :=
  optChain (pat_managingOrganization patient) ref_reference.

Definition organizationRef (practitionerRole : PractitionerRole) : option string :=
  optChain (role_organization practitionerRole) ref_reference.

Definition ownerRef (device : fhirDevice) : option string :=
  optChain (dev_owner device) ref_reference.

(** A reference suffix-matches an id: the reference string is there and ends
    with the id, read as a JavaScript string. *)
Definition suffixMatches (ref : option Reference) (id : option string) : Prop :=
  exists s, optChain ref ref_reference = Some s /\ endsWith s (ToString id) = true.

(** ** The four conditions of the Consent Evaluator (section 4.6) *)

Definition actorGrants (consent : Consent) : list ConsentProvisionActor :=
  match optChain (consent_provision consent) prov_actor with
  | Some actors => actors
  | None => []
  end.

(** 1. the consent's provision type equals [permit] *)
Definition provisionIsPermit (consent : Consent) : Prop :=
  optChain (consent_provision consent) prov_type = Some "permit".

(** 2. at least one actor-grant carries a role-code of [GRANTEE] *)
Definition hasGranteeActor (consent : Consent) : Prop :=
  exists actor codings coding,
    In actor (actorGrants consent) /\
    cc_coding (actor_role actor) = Some codings /\
    In coding codings /\
    coding_code coding = Some "GRANTEE".

(** 3. at least one actor-grant's actor-reference suffix-matches the role's id *)
Definition actorMatchesRole (consent : Consent) (practitionerRole : PractitionerRole) : Prop :=
  exists actor,
    In actor (actorGrants consent) /\
    suffixMatches (Some (actor_reference actor)) (role_id practitionerRole).

(** 4. the consent's patient-reference equals the device's patient-reference *)
Definition samePatient (consent : Consent) (device : fhirDevice) : Prop :=
  exists cp dp,
    consent_patient consent = Some cp /\
    dev_patient device = Some dp /\
    ref_reference cp = ref_reference dp.

(** All four, as independent conjuncts over the whole record. *)
Definition consentQualifies (practitionerRole : PractitionerRole)
    (device : fhirDevice) (consent : Consent) : Prop :=
  provisionIsPermit consent /\
  hasGranteeActor consent /\
  actorMatchesRole consent practitionerRole /\
  samePatient consent device.

Definition consentGranted (consents : list Consent)
    (practitionerRole : PractitionerRole) (device : fhirDevice) : Prop :=
  exists consent, In consent consents /\ consentQualifies practitionerRole device consent.

(** ** Device and observation eligibility (sections 4.5 and 4.7) *)

Definition deviceEligible (filteredPatients : list fhirPatient)
    (consents : list Consent) (practitionerRole : PractitionerRole)
    (device : fhirDevice) : Prop :=
  (exists patient, In patient filteredPatients /\
                   suffixMatches (dev_patient device) (pat_id patient))
  \/ (ownerRef device = organizationRef practitionerRole /\
      consentGranted consents practitionerRole device).

Definition observationEligible (filteredPatients : list fhirPatient)
    (filteredDevices : list fhirDevice) (observation : fhirObservation) : Prop :=
  (exists patient, In patient filteredPatients /\
                   suffixMatches (obs_subject observation) (pat_id patient))
  \/ (exists device, In device filteredDevices /\
                     suffixMatches (obs_device observation) (dev_id device)).

(** ** Exactly one candidate *)

(** [x] is the one element of [l] that satisfies [P]: it sits at one
    position, and no element at any other position satisfies [P]. *)
Definition TheOnly {A : Type} (P : A -> Prop) (l : list A) (x : A) : Prop :=
  exists before after,
    l = (before ++ x :: after)%list /\ P x /\
    forall y, In y (before ++ after)%list -> ~ P y.

(** A practitioner has an identifier whose value equals the subject id. *)
Definition identifiedBy (userId : option string) (practitioner : Practitioner) : Prop :=
  exists identifiers identifier,
    prac_identifier practitioner = Some identifiers /\
    In identifier identifiers /\
    ident_value identifier = userId.

(** A role's practitioner-reference suffix-matches ["Practitioner/" + id]. *)
Definition roleOf (practitioner : Practitioner) (practitionerRole : PractitionerRole) : Prop :=
  suffixMatches (role_practitioner practitionerRole)
                (Some ("Practitioner/" ++ ToString (prac_id practitioner))).

(** ** Records whose dereferenced properties are all present *)

Definition referenceReadable (ref : option Reference) : Prop :=
  exists r s, ref = Some r /\ ref_reference r = Some s.

Definition consentReadable (consent : Consent) : Prop :=
  exists provision actors,
    consent_provision consent = Some provision /\
    prov_actor provision = Some actors /\
    consent_patient consent <> None /\
    forall actor, In actor actors ->
      cc_coding (actor_role actor) <> None /\
      ref_reference (actor_reference actor) <> None.

Definition deviceReadable (device : fhirDevice) : Prop :=
  referenceReadable (dev_patient device) /\ dev_owner device <> None.

Definition observationReadable (observation : fhirObservation) : Prop :=
  referenceReadable (obs_subject observation) /\
  referenceReadable (obs_device observation).

(** ** Resource kinds *)

(** The view [r as T] is defined exactly on the resources tagged [T]. *)
Class LawfulKind (T : Type) `{FhirKind T} : Prop := {
  downcast_upcast : forall t : T, downcast (upcast t) = Some t;
  upcast_tag : forall t : T, resourceType (upcast t) = endpoint (T := T);
  downcast_Some : forall (r : FhirResource) (t : T), downcast r = Some t -> r = upcast t;
  tagged_downcast : forall r : FhirResource,
    String.eqb (resourceType r) (endpoint (T := T)) = true ->
    exists t : T, downcast r = Some t
}.


(** ** The caller's role *)

(** The request carries [token], the token decodes, and [practitionerRole] is
    the only fetched role of the only fetched practitioner identified by the
    decoded subject id. *)
Definition callerRole (jwtDecode : string -> js JwtCustomPayload)
    (fetchJson : string -> option string -> js Bundle)
    (request : HttpRequest) (token : string)
    (practitionerRole : PractitionerRole) : Prop :=
  exists payload practitioners practitioner practitionerRoles,
    req_authorization request = Some token /\
    jwtDecode token = Ret payload /\
    getRessources fetchJson Practitioner (Some token) = Ret (Some practitioners, None) /\
    TheOnly (identifiedBy (oid payload)) practitioners practitioner /\
    getRessources fetchJson PractitionerRole (Some token)
    = Ret (Some practitionerRoles, None) /\
    TheOnly (roleOf practitioner) practitionerRoles practitionerRole.

(** ** Servers that answer alike *)

(** Two servers give the same answer to the search for [kind] made with the
    Authorization value [authorization]. *)
Definition sameAnswer (fetchJson fetchJson' : string -> option string -> js Bundle)
    (authorization : option string) (kind : string) : Prop :=
  fetchJson (fhirURL ++ "/" ++ kind) authorization
  = fetchJson' (fhirURL ++ "/" ++ kind) authorization.

(** ** Consents by provision type *)

Definition permitTyped (consent : Consent) : bool :=
  strictEq (optChain (consent_provision consent) prov_type) (Some "permit").

(** The properties the GRANTEE test and the type test of the evaluator read. *)
Definition granteeReadable (consent : Consent) : Prop :=
  exists provision actors,
    consent_provision consent = Some provision /\
    prov_actor provision = Some actors /\
    forall actor, In actor actors -> cc_coding (actor_role actor) <> None.

(** ** Ids *)

(** FHIR ids are made of letters, digits, [-] and [.]: they hold no slash. *)
Fixpoint slashFree (s : string) : bool :=
  match s with
  | EmptyString => true
  | String c s' => negb (Ascii.eqb c "/") && slashFree s'
  end.

(** * Sample data

    The scenario of section 8 of the specification: organization [Org/1]
    with patient [P1], a second organization with patient [P2], a device of
    [P2] owned by [Org/1], and a consent of [P2] for role [R1]. *)

Module Scenario.

Definition ref (s : string) : option Reference :=
  Some {| ref_reference := Some s |}.

Definition R1 : PractitionerRole :=
  {| role_id := Some "R1";
     role_practitioner := ref "Practitioner/7";
     role_organization := ref "Org/1" |}.

Definition P1 : fhirPatient :=
  {| pat_id := Some "P1"; pat_managingOrganization := ref "Org/1" |}.

Definition P2 : fhirPatient :=
  {| pat_id := Some "P2"; pat_managingOrganization := ref "Org/2" |}.

(** A patient record without [managingOrganization]. *)
Definition P3 : fhirPatient :=
  {| pat_id := Some "P3"; pat_managingOrganization := None |}.

Definition D1 : fhirDevice :=
  {| dev_id := Some "D1"; dev_patient := ref "Patient/P2"; dev_owner := ref "Org/1" |}.

Definition D2 : fhirDevice :=
  {| dev_id := Some "D2"; dev_patient := ref "Patient/P1"; dev_owner := ref "Org/1" |}.

Definition D3 : fhirDevice :=
  {| dev_id := Some "D3"; dev_patient := ref "Patient/P2"; dev_owner := ref "Org/2" |}.

Definition grantee : CodeableConcept :=
  {| cc_coding := Some [ {| coding_code := Some "GRANTEE" |} ] |}.

Definition consentP2 : Consent :=
  {| consent_id := Some "C1";
     consent_patient := ref "Patient/P2";
     consent_provision := Some
       {| prov_type := Some "permit";
          prov_actor := Some
            [ {| actor_role := grantee;
                 actor_reference := {| ref_reference := Some "PractitionerRole/R1" |} |} ] |} |}.

Definition O1 : fhirObservation :=
  {| obs_id := Some "O1"; obs_subject := ref "Patient/P1"; obs_device := ref "Device/D2" |}.

Definition O2 : fhirObservation :=
  {| obs_id := Some "O2"; obs_subject := ref "Patient/P2"; obs_device := ref "Device/D1" |}.

Definition O3 : fhirObservation :=
  {| obs_id := Some "O3"; obs_subject := ref "Patient/P2"; obs_device := ref "Device/D3" |}.

(** A role whose organization is given by display name only, which FHIR
    allows: the [Reference] is there, its [reference] string is not. *)
Definition roleWithoutOrganizationReference : PractitionerRole :=
  {| role_id := Some "R2";
     role_practitioner := ref "Practitioner/8";
     role_organization := Some {| ref_reference := None |} |}.

(** A role without any [organization]. *)
Definition roleWithoutOrganization : PractitionerRole :=
  {| role_id := Some "R3";
     role_practitioner := ref "Practitioner/9";
     role_organization := None |}.

(** Practitioners: two with an identifier value, one whose only identifier
    names a system and carries no value. *)
Definition practitioner7 : Practitioner :=
{| prac_id := Some "7"; prac_identifier := Some [ {| ident_value := Some "oid-7" |} ] |}.

Definition practitioner8 : Practitioner :=
{| prac_id := Some "8"; prac_identifier := Some [ {| ident_value := Some "oid-8" |} ] |}.

Definition practitioner9 : Practitioner :=
{| prac_id := Some "9"; prac_identifier := Some [ {| ident_value := None |} ] |}.

Definition R2 : PractitionerRole :=
{| role_id := Some "R2";
   role_practitioner := ref "Practitioner/8";
   role_organization := ref "Org/2" |}.

Definition R3 : PractitionerRole :=
{| role_id := Some "R3";
   role_practitioner := ref "Practitioner/9";
   role_organization := ref "Org/1" |}.

(** What the FHIR server holds, by request URL. *)
Definition store (url : string) : list FhirResource :=
if String.eqb url (fhirURL ++ "/Practitioner") then
  [RPractitioner practitioner7; RPractitioner practitioner8; RPractitioner practitioner9]
else if String.eqb url (fhirURL ++ "/PractitionerRole") then
  [RPractitionerRole R1; RPractitionerRole R2; RPractitionerRole R3]
else if String.eqb url (fhirURL ++ "/Patient") then
  [RPatient P1; RPatient P2; RPatient P3]
else if String.eqb url (fhirURL ++ "/Consent") then
  [RConsent consentP2]
else if String.eqb url (fhirURL ++ "/Device") then
  [RDevice D1; RDevice D2; RDevice D3]
else if String.eqb url (fhirURL ++ "/Observation") then
  [RObservation O1; RObservation O2; RObservation O3]
else [].

(** A server that answers every search with a searchset bundle. *)
Definition fetchJson (url : string) (authorization : option string) : js Bundle :=
ret (getSearchBundle (store url)).

(** A decoder: the token of practitioner 7, the token of a subject no
    practitioner is registered for, and a token whose claims carry no [oid];
    anything else is not a token. *)
Definition jwtDecode (token : string) : js JwtCustomPayload :=
if String.eqb token "token-7" then ret {| oid := Some "oid-7" |}
else if String.eqb token "token-0" then ret {| oid := Some "oid-0" |}
else if String.eqb token "token-without-oid" then ret {| oid := None |}
else raise InvalidTokenError.

Definition request (token : string) : HttpRequest :=
{| req_url := "/api/Patient"; req_authorization := Some token |}.

(** A server whose searches find nothing: FHIR JSON has no empty arrays, so
    the bundle comes without [entry]. *)
Definition emptySearchset : Bundle :=
{| bundle_resourceType := Some "Bundle";
   bundle_type := Some "searchset";
   bundle_entry := None |}.

Definition fetchNothing (url : string) (authorization : option string) : js Bundle :=
ret emptySearchset.

(** Ids where one is the tail of another. *)
Definition patient1 : fhirPatient :=
{| pat_id := Some "1"; pat_managingOrganization := ref "Org/1" |}.

Definition patient21 : fhirPatient :=
{| pat_id := Some "21"; pat_managingOrganization := ref "Org/2" |}.

Definition device21 : fhirDevice :=
{| dev_id := Some "D21"; dev_patient := ref "Patient/21"; dev_owner := ref "Org/2" |}.

Definition observation21 : fhirObservation :=
{| obs_id := Some "O21"; obs_subject := ref "Patient/21"; obs_device := ref "Device/D21" |}.

(** A server that answers every search with an error document. *)
Definition operationOutcome : Bundle :=
{| bundle_resourceType := Some "OperationOutcome";
   bundle_type := None;
   bundle_entry := None |}.

Definition fetchOutcome (url : string) (authorization : option string) : js Bundle :=
ret operationOutcome.

(** A server whose Patient search comes back with entries of other kinds
    in between. *)
Definition mixedResources : list FhirResource :=
[RPatient P1; RDevice D1; ROperationOutcome None; RPatient P2; RPatient P1].

Definition fetchMixed (url : string) (authorization : option string) : js Bundle :=
ret (getSearchBundle mixedResources).

(** A consent of [P2] that denies role [R1]. *)
Definition denialP2 : Consent :=
{| consent_id := Some "C3";
   consent_patient := ref "Patient/P2";
   consent_provision := Some
     {| prov_type := Some "deny";
        prov_actor := Some
          [ {| actor_role := grantee;
               actor_reference := {| ref_reference := Some "PractitionerRole/R1" |} |} ] |} |}.

(** Records that lack what the filters would read. *)
Definition deviceWithoutOwner : fhirDevice :=
{| dev_id := Some "D4"; dev_patient := ref "Patient/P1"; dev_owner := None |}.

(** The sample server, except that its Device search finds nothing. *)
Definition fetchWithoutDevices (url : string) (authorization : option string)
    : js Bundle :=
if String.eqb url (fhirURL ++ "/Device") then ret emptySearchset
else fetchJson url authorization.

End Scenario.

(** * Reasoning principles *)

(** ** The monad *)

Lemma bind_Ret {A B : Type} (c : js A) (k : A -> js B) (v : B) :
  bind c k = Ret v <-> exists a, c = Ret a /\ k a = Ret v.
Proof.
  destruct c as [e | a]; simpl; split.
  - discriminate.
  - intros (a & Ha & _); discriminate.
  - intros Hk; exists a; split; [reflexivity | exact Hk].
  - intros (a' & Ha & Hk); injection Ha as ->; exact Hk.
Qed.

Lemma receiver_Ret {A : Type} (o : option A) (a : A) :
  receiver o = Ret a <-> o = Some a.
Proof.
  destruct o as [x |]; simpl; split; intros H; try discriminate;
    injection H as ->; reflexivity.
Qed.

Lemma field_Ret {A B : Type} (o : option A) (f : A -> B) (b : B) :
  field o f = Ret b <-> exists a, o = Some a /\ f a = b.
Proof.
  destruct o as [x |]; simpl; split.
  - intros H; injection H as <-; eauto.
  - intros (a & Ha & <-); injection Ha as ->; reflexivity.
  - discriminate.
  - intros (a & Ha & _); discriminate.
Qed.

Ltac js_cases a :=
  destruct a as [? | [|]]; simpl; split; intros;
  repeat match goal with
         | H : _ /\ _ |- _ => destruct H
         | H : _ \/ _ |- _ => destruct H
         end;
  try discriminate; auto.

Lemma andThen_true (a b : js bool) :
  a &&& b = Ret true <-> a = Ret true /\ b = Ret true.
Proof. js_cases a. Qed.

Lemma andThen_false (a b : js bool) :
  a &&& b = Ret false <-> a = Ret false \/ (a = Ret true /\ b = Ret false).
Proof. js_cases a. Qed.

Lemma orElse_true (a b : js bool) :
  a ||| b = Ret true <-> a = Ret true \/ (a = Ret false /\ b = Ret true).
Proof. js_cases a. Qed.

Lemma orElse_false (a b : js bool) :
  a ||| b = Ret false <-> a = Ret false /\ b = Ret false.
Proof. js_cases a. Qed.

(** ** Strings *)

Lemma strictEq_true (a b : option string) : strictEq a b = true <-> a = b.
Proof.
  destruct a as [x |], b as [y |]; simpl; split; intros H;
    try discriminate; try reflexivity.
  - apply String.eqb_eq in H; subst; reflexivity.
  - injection H as ->; apply String.eqb_refl.
Qed.

Lemma strictEq_false (a b : option string) : strictEq a b = false <-> a <> b.
Proof.
  rewrite <- strictEq_true. destruct (strictEq a b); split; intros H;
    try discriminate; try reflexivity.
  exfalso; apply H; reflexivity.
Qed.

Lemma endsWith_nil (t : string) : endsWith "" t = String.eqb "" t.
Proof. simpl; destruct t; reflexivity. Qed.

Lemma endsWith_cons (a : ascii) (s t : string) :
  endsWith (String a s) t
  = if String.eqb (String a s) t then true else endsWith s t.
Proof. reflexivity. Qed.

Lemma endsWith_append (p t : string) : endsWith (p ++ t) t = true.
Proof.
  induction p as [| a p IH].
  - change ("" ++ t) with t. destruct t as [| b t].
    + reflexivity.
    + rewrite endsWith_cons, String.eqb_refl; reflexivity.
  - change (String a p ++ t) with (String a (p ++ t)).
    rewrite endsWith_cons, IH. destruct (String.eqb _ t); reflexivity.
Qed.

(** [endsWith] is the suffix test. *)
Lemma endsWith_iff (s t : string) :
  endsWith s t = true <-> exists p, s = p ++ t.
Proof.
  split.
  - induction s as [| a s IH].
    + rewrite endsWith_nil; intros H; apply String.eqb_eq in H.
      exists ""; exact H.
    + rewrite endsWith_cons.
      destruct (String.eqb_spec (String a s) t) as [E | _].
      * exists ""; exact E.
      * intros H; destruct (IH H) as [p ->]. exists (String a p); reflexivity.
  - intros [p ->]; apply endsWith_append.
Qed.

Lemma callEndsWith_Ret (r x : option string) (b : bool) :
  callEndsWith r x = Ret b <-> exists s, r = Some s /\ endsWith s (ToString x) = b.
Proof.
  destruct r as [s |]; simpl; split.
  - intros H; injection H as <-; eauto.
  - intros (s' & E & <-); injection E as ->; reflexivity.
  - discriminate.
  - intros (s' & E & _); discriminate.
Qed.

(** ** Arrays *)

Lemma some_false {A : Type} (f : A -> js bool) (l : list A) :
  Array.some f l = Ret false <-> forall x, In x l -> f x = Ret false.
Proof.
  induction l as [| y l IH]; simpl.
  - split; [intros _ x [] | reflexivity].
  - destruct (f y) as [e | [|]] eqn:E; simpl.
    + split; [discriminate | intros H].
      specialize (H y (or_introl eq_refl)); congruence.
    + split; [discriminate | intros H].
      specialize (H y (or_introl eq_refl)); congruence.
    + rewrite IH; split.
      * intros H x [<- | Hx]; auto.
      * intros H x Hx; apply H; right; exact Hx.
Qed.

Lemma some_true {A : Type} (f : A -> js bool) (l : list A) :
  Array.some f l = Ret true -> exists x, In x l /\ f x = Ret true.
Proof.
  induction l as [| y l IH]; simpl.
  - discriminate.
  - destruct (f y) as [e | [|]] eqn:E; simpl.
    + discriminate.
    + intros _; exists y; auto.
    + intros H; destruct (IH H) as (x & Hx & Hfx); eauto.
Qed.

(** A [some] that returned, over an array holding a witness, returned true. *)
Lemma some_Ret_witness {A : Type} (f : A -> js bool) (l : list A) (b : bool) (x : A) :
  Array.some f l = Ret b -> In x l -> f x = Ret true -> b = true.
Proof.
  intros H Hx Hfx. destruct b; [reflexivity |].
  rewrite some_false in H. rewrite (H x Hx) in Hfx; discriminate.
Qed.

Lemma some_total {A : Type} (f : A -> js bool) (l : list A) :
  (forall x, In x l -> exists b, f x = Ret b) -> exists b, Array.some f l = Ret b.
Proof.
  induction l as [| y l IH]; simpl; intros H.
  - eauto.
  - destruct (H y (or_introl eq_refl)) as [[|] ->]; simpl; eauto.
Qed.

Lemma filter_In {A : Type} (f : A -> js bool) (l out : list A) :
  Array.filter f l = Ret out ->
  forall x, In x out <-> In x l /\ f x = Ret true.
Proof.
  revert out; induction l as [| y l IH]; simpl; intros out H x.
  - injection H as <-; simpl; tauto.
  - destruct (f y) as [e | b] eqn:E; simpl in H; [discriminate |].
    destruct (Array.filter f l) as [e | r]; simpl in H; [discriminate |].
    injection H as <-. specialize (IH r eq_refl x).
    destruct b; simpl; rewrite IH; split.
    + intros [<- | [? ?]]; auto.
    + intros [[<- | ?] ?]; auto.
    + intros [? ?]; auto.
    + intros [[<- | ?] Hx]; [rewrite E in Hx; discriminate | auto].
Qed.

(** A [filter] that returned ran its callback on every element. *)
Lemma filter_ran {A : Type} (f : A -> js bool) (l out : list A) :
  Array.filter f l = Ret out -> forall x, In x l -> exists b, f x = Ret b.
Proof.
  revert out; induction l as [| y l IH]; simpl; intros out H x Hx.
  - destruct Hx.
  - destruct (f y) as [e | b] eqn:E; simpl in H; [discriminate |].
    destruct (Array.filter f l) as [e | r]; simpl in H; [discriminate |].
    destruct Hx as [<- | Hx]; [eauto | exact (IH r eq_refl x Hx)].
Qed.

Lemma filter_total {A : Type} (f : A -> js bool) (l : list A) :
  (forall x, In x l -> exists b, f x = Ret b) -> exists out, Array.filter f l = Ret out.
Proof.
  induction l as [| y l IH]; simpl; intros H.
  - eauto.
  - destruct (H y (or_introl eq_refl)) as [b ->]; simpl.
    destruct IH as [r ->]; [intros x Hx; apply H; right; exact Hx |].
    simpl; eauto.
Qed.

Lemma filter_length {A : Type} (f : A -> js bool) (l out : list A) :
  Array.filter f l = Ret out -> length out <= length l.
Proof.
  revert out; induction l as [| y l IH]; simpl; intros out H.
  - injection H as <-; simpl; lia.
  - destruct (f y) as [e | b]; simpl in H; [discriminate |].
    destruct (Array.filter f l) as [e | r]; simpl in H; [discriminate |].
    injection H as <-. specialize (IH r eq_refl). destruct b; simpl; lia.
Qed.

(** ** Inverting a computation that returned *)

Lemma ret_Ret {A : Type} (a b : A) : ret a = Ret b <-> a = b.
Proof. simpl; split; [intros H; injection H as ->; reflexivity | intros ->; reflexivity]. Qed.

Ltac js_inv :=
  repeat match goal with
         | H : field _ _ = inr _ |- _ =>
             apply (proj1 (field_Ret _ _ _)) in H; destruct H as (? & ? & H)
         | H : receiver _ = inr _ |- _ => apply (proj1 (receiver_Ret _ _)) in H
         | H : callEndsWith _ _ = inr _ |- _ =>
             apply (proj1 (callEndsWith_Ret _ _ _)) in H; destruct H as (? & ? & H)
         | H : bind _ _ = inr _ |- _ =>
             apply (proj1 (bind_Ret _ _ _)) in H; destruct H as (? & ? & H)
         | H : ret _ = inr _ |- _ => apply (proj1 (ret_Ret _ _)) in H
         | H : _ &&& _ = inr true |- _ =>
             apply (proj1 (andThen_true _ _)) in H; destruct H
         | H : _ ||| _ = inr false |- _ =>
             apply (proj1 (orElse_false _ _)) in H; destruct H
         | H : strictEq _ _ = true |- _ => apply (proj1 (strictEq_true _ _)) in H
         | H : strictEq _ _ = false |- _ => apply (proj1 (strictEq_false _ _)) in H
         end.

(** Two reads of the same optional property agree. *)
Ltac same_field :=
  repeat match goal with
         | H1 : ?o = Some ?a, H2 : ?o = Some ?b |- _ =>
             first [ constr_eq a b; clear H2
                   | rewrite H1 in H2; injection H2; intros; subst ]
         end.

(** ** The consent evaluator *)

Ltac some_inv :=
  match goal with
  | H : Array.some _ _ = inr true |- _ =>
      apply some_true in H; destruct H as (? & ? & H); cbv beta in H
  end.

Lemma consentPermits_true role device consent :
  consentPermits role device consent = Ret true ->
  consentQualifies role device consent.
Proof.
  unfold consentPermits; intros H. js_inv.
  repeat (some_inv; js_inv). subst. same_field.
  unfold consentQualifies, provisionIsPermit, hasGranteeActor, actorMatchesRole,
    samePatient, actorGrants, suffixMatches.
  match goal with H : consent_provision consent = Some _ |- _ => rewrite H end.
  cbn [optChain].
  match goal with H : prov_actor _ = Some _ |- _ => rewrite H end.
  repeat split; eauto 10.
Qed.

Lemma grantee_callback_false (actors : list ConsentProvisionActor) :
  Array.some (fun actor =>
    codings <- receiver (cc_coding (actor_role actor)) ;;
    Array.some (fun coding =>
      ret (strictEq (coding_code coding) (Some "GRANTEE"))) codings) actors
  = Ret false ->
  forall actor codings coding,
    In actor actors -> cc_coding (actor_role actor) = Some codings ->
    In coding codings -> coding_code coding <> Some "GRANTEE".
Proof.
  intros H actor codings coding Hin Hcs Hc.
  rewrite some_false in H. specialize (H actor Hin). cbv beta in H.
  js_inv. same_field.
  rewrite some_false in H. specialize (H coding Hc). cbv beta in H.
  js_inv. exact H.
Qed.

Lemma actorGrants_eq consent provision actors :
  consent_provision consent = Some provision ->
  prov_actor provision = Some actors ->
  actorGrants consent = actors.
Proof. unfold actorGrants; intros -> E; cbn [optChain]; rewrite E; reflexivity. Qed.

Lemma consentPermits_false role device consent :
  consentPermits role device consent = Ret false ->
  ~ consentQualifies role device consent.
Proof.
  unfold consentPermits; intros H (Hpermit & Hgrantee & Hmatch & Hsame).
  apply andThen_false in H. destruct H as [H | [Hab H]].
  - apply andThen_false in H. destruct H as [H | [_ H]].
    + (* no actor carries GRANTEE *)
      js_inv. subst.
      destruct Hgrantee as (actor & codings & coding & Hin & Hcs & Hc & Hcode).
      erewrite actorGrants_eq in Hin by eassumption.
      exact (grantee_callback_false _ H _ _ _ Hin Hcs Hc Hcode).
    + (* the provision type is not permit *)
      js_inv. unfold provisionIsPermit in Hpermit.
      match goal with E : consent_provision consent = Some _ |- _ =>
        rewrite E in Hpermit end.
      cbn [optChain] in Hpermit. subst. contradiction.
  - (* no actor matches the role and the patient at once *)
    js_inv. subst.
    destruct Hmatch as (actor & Hin & s & Hs & Hends).
    destruct Hsame as (cp & dp & Hcp & Hdp & Heq).
    erewrite actorGrants_eq in Hin by eassumption.
    rewrite some_false in H. specialize (H actor Hin). cbv beta in H.
    cbn [optChain] in Hs.
    apply andThen_false in H. destruct H as [H | [_ H]].
    + js_inv. congruence.
    + js_inv. same_field. subst. contradiction.
Qed.

(** Unfolds the monad and the property reads once their arguments are known. *)
Ltac js_red :=
  cbv beta iota delta
    [andThen orElse field receiver callEndsWith optChain
     bind ret raise Monad_js Exc_js Monad_either Exception_either].

Lemma consentPermits_total role device consent :
  consentReadable consent -> dev_patient device <> None ->
  exists b, consentPermits role device consent = Ret b.
Proof.
  intros (provision & actors & Hp & Ha & Hcp & Hactors) Hdp.
  destruct (consent_patient consent) as [cp |] eqn:Ecp; [| contradiction].
  destruct (dev_patient device) as [dp |] eqn:Edp; [| contradiction].
  assert (HA : exists a, Array.some (fun actor =>
    codings <- receiver (cc_coding (actor_role actor)) ;;
    Array.some (fun coding =>
      ret (strictEq (coding_code coding) (Some "GRANTEE"))) codings) actors
    = Ret a).
  { apply some_total. intros actor Hin.
    destruct (Hactors actor Hin) as [Hc _].
    destruct (cc_coding (actor_role actor)) as [codings |]; [| contradiction].
    apply (some_total (fun coding =>
      ret (strictEq (coding_code coding) (Some "GRANTEE")))).
    intros coding _. eexists; reflexivity. }
  assert (HC : exists c, Array.some (fun actor =>
    callEndsWith (ref_reference (actor_reference actor)) (role_id role)
    &&& (cp <- field (consent_patient consent) ref_reference ;;
         dp <- field (dev_patient device) ref_reference ;;
         ret (strictEq cp dp))) actors = Ret c).
  { apply some_total. intros actor Hin.
    destruct (Hactors actor Hin) as [_ Hr].
    destruct (ref_reference (actor_reference actor)) as [s |]; [| contradiction].
    rewrite Ecp, Edp. js_red.
    destruct (endsWith s (ToString (role_id role))); eexists; reflexivity. }
  destruct HA as [a HA], HC as [c HC].
  unfold consentPermits. rewrite Hp, Ecp, Edp in *.
  unfold andThen, field in *. cbn [receiver bind ret Monad_js Monad_either] in *.
  rewrite Ha. cbn [receiver bind ret Monad_js Monad_either].
  rewrite HA. destruct a; [| eexists; reflexivity].
  destruct (strictEq (prov_type provision) (Some "permit")); [| eexists; reflexivity].
  rewrite HC. eexists; reflexivity.
Qed.

Lemma isPractitionerRolePermitted_spec consents role device b :
  isPractitionerRolePermitted consents role device = Ret b ->
  (b = true <-> consentGranted consents role device).
Proof.
  unfold isPractitionerRolePermitted, consentGranted; intros H; split.
  - intros ->. apply some_true in H. destruct H as (consent & Hin & H).
    exists consent; split; [exact Hin | exact (consentPermits_true _ _ _ H)].
  - intros (consent & Hin & Hq). destruct b; [reflexivity | exfalso].
    rewrite some_false in H.
    exact (consentPermits_false _ _ _ (H consent Hin) Hq).
Qed.

Lemma isPractitionerRolePermitted_total consents role device :
  (forall consent, In consent consents -> consentReadable consent) ->
  dev_patient device <> None ->
  exists b, isPractitionerRolePermitted consents role device = Ret b.
Proof.
  intros Hc Hd. apply some_total. intros consent Hin.
  apply consentPermits_total; auto.
Qed.

(** ** Suffix matching against a list of candidates *)

Section SuffixSome.

Context {A : Type} (ref : option Reference) (idOf : A -> option string).

Let callback (x : A) : js bool :=
  r <- field ref ref_reference ;; callEndsWith r (idOf x).

Lemma suffixSome_spec (l : list A) (b : bool) :
  Array.some callback l = Ret b ->
  (b = true <-> exists x, In x l /\ suffixMatches ref (idOf x)).
Proof.
  intros H; split.
  - intros ->. apply some_true in H. destruct H as (x & Hin & H).
    unfold callback in H. js_inv. subst.
    exists x; split; [exact Hin |]. unfold suffixMatches. cbn [optChain]. eauto.
  - intros (x & Hin & s & Hs & Hends). destruct b; [reflexivity | exfalso].
    rewrite some_false in H. specialize (H x Hin). unfold callback in H.
    js_inv. subst. cbn [optChain] in Hs. congruence.
Qed.

Lemma suffixSome_total (l : list A) :
  referenceReadable ref -> exists b, Array.some callback l = Ret b.
Proof.
  intros (r & s & -> & Hs). apply some_total. intros x _.
  unfold callback. js_red. rewrite Hs. eexists; reflexivity.
Qed.

End SuffixSome.

(** ** The membership predicate *)

Lemma isPatientInPractitionerOrganization_Ret patient role b :
  isPatientInPractitionerOrganization patient role = Ret b <->
  role_organization role <> None /\
  b = strictEq (managingOrganizationRef patient) (organizationRef role).
Proof.
  unfold isPatientInPractitionerOrganization, managingOrganizationRef, organizationRef.
  destruct (role_organization role) as [o |]; simpl; split.
  - intros H; injection H as <-; split; [discriminate | reflexivity].
  - intros [_ ->]; reflexivity.
  - discriminate.
  - intros [H _]; contradiction.
Qed.

(** ** The device and observation callbacks *)

Lemma deviceVisible_spec fps consents role device b :
  deviceVisible fps consents role device = Ret b ->
  (b = true <-> deviceEligible fps consents role device).
Proof.
  unfold deviceVisible, deviceEligible; intros H.
  apply (proj1 (bind_Ret _ _ _)) in H. destruct H as (b1 & H1 & H).
  pose proof (suffixSome_spec (dev_patient device) pat_id fps _ H1) as S1.
  destruct b1.
  - apply (proj1 (ret_Ret _ _)) in H. subst b.
    split; [intros _; left; tauto | reflexivity].
  - unfold andThen in H.
    apply (proj1 (bind_Ret _ _ _)) in H. destruct H as (b2 & H2 & H).
    js_inv. subst.
    match goal with Ho : dev_owner device = Some ?o,
                    Hg : role_organization role = Some ?g |- _ =>
      assert (Eq : strictEq (ref_reference o) (ref_reference g) = true
                   <-> ownerRef device = organizationRef role)
        by (unfold ownerRef, organizationRef; rewrite Ho, Hg; apply strictEq_true)
    end.
    destruct (strictEq _ _).
    + pose proof (isPractitionerRolePermitted_spec _ _ _ _ H) as S2.
      split.
      * intros Hb; right; split; [tauto | apply S2; exact Hb].
      * intros [Hp | [_ Hg]]; [apply S1 in Hp; discriminate | apply S2; exact Hg].
    + apply (proj1 (ret_Ret _ _)) in H; subst b. split; [discriminate |].
      intros [Hp | [Ho _]]; [apply S1 in Hp; discriminate |].
      apply Eq in Ho; discriminate.
Qed.

Lemma deviceVisible_total fps consents role device :
  deviceReadable device -> role_organization role <> None ->
  (forall consent, In consent consents -> consentReadable consent) ->
  exists b, deviceVisible fps consents role device = Ret b.
Proof.
  intros [Hp Ho] Hg Hc. unfold deviceVisible.
  destruct (suffixSome_total _ pat_id fps Hp) as [b1 H1].
  cbv zeta in H1. rewrite H1.
  destruct b1; [eexists; reflexivity |].
  destruct (dev_owner device) as [o |]; [| contradiction].
  destruct (role_organization role) as [g |]; [| contradiction].
  destruct (isPractitionerRolePermitted_total consents role device Hc) as [b2 H2].
  { destruct Hp as (r & _ & -> & _); discriminate. }
  js_red. rewrite H2.
  destruct (strictEq _ _); eexists; reflexivity.
Qed.

Lemma observationVisible_spec fps fds observation b :
  observationVisible fps fds observation = Ret b ->
  (b = true <-> observationEligible fps fds observation).
Proof.
  unfold observationVisible, observationEligible; intros H.
  apply (proj1 (bind_Ret _ _ _)) in H. destruct H as (b1 & H1 & H).
  pose proof (suffixSome_spec (obs_subject observation) pat_id fps _ H1) as S1.
  destruct b1.
  - apply (proj1 (ret_Ret _ _)) in H; subst b.
    split; [intros _; left; tauto | reflexivity].
  - pose proof (suffixSome_spec (obs_device observation) dev_id fds _ H) as S2.
    split.
    + intros Hb; right; apply S2; exact Hb.
    + intros [Hp | Hd]; [apply S1 in Hp; discriminate | apply S2; exact Hd].
Qed.

Lemma observationVisible_total fps fds observation :
  observationReadable observation ->
  exists b, observationVisible fps fds observation = Ret b.
Proof.
  intros [Hs Hd]. unfold observationVisible.
  destruct (suffixSome_total _ pat_id fps Hs) as [b1 H1].
  cbv zeta in H1. rewrite H1.
  destruct b1; [eexists; reflexivity |].
  apply (suffixSome_total _ dev_id fds Hd).
Qed.

(** ** The filter stages *)

Lemma filter_incl {A : Type} (f : A -> js bool) (l out : list A) :
  Array.filter f l = Ret out -> incl out l.
Proof. intros H x Hx. apply (filter_In f l out H). exact Hx. Qed.

(** ** Exactly one candidate *)

Lemma filter_nil_iff {A : Type} (f : A -> js bool) (l out : list A) :
  Array.filter f l = Ret out ->
  (out = [] <-> forall y, In y l -> f y = Ret false).
Proof.
  intros H; split.
  - intros -> y Hy. destruct (filter_ran _ _ _ H y Hy) as [[|] Hb]; [| exact Hb].
    exfalso. apply (proj2 (filter_In _ _ _ H y)). split; assumption.
  - intros Hall. destruct out as [| x out]; [reflexivity | exfalso].
    destruct (proj1 (filter_In _ _ _ H x) (or_introl eq_refl)) as [Hx Hfx].
    rewrite (Hall x Hx) in Hfx; discriminate.
Qed.

(** A filter keeps exactly [x] if and only if [x] is the only element that
    satisfies the predicate the callback decides. *)
Lemma filter_TheOnly {A : Type} (f : A -> js bool) (P : A -> Prop) (l : list A) :
  forall out,
    Array.filter f l = Ret out ->
    (forall y b, In y l -> f y = Ret b -> (b = true <-> P y)) ->
    forall x, out = [x] <-> TheOnly P l x.
Proof.
  induction l as [| y l IH]; intros out H Hdec x.
  - apply (proj1 (ret_Ret _ _)) in H; subst out. split; [discriminate |].
    intros (before & after & E & _). destruct before; discriminate.
  - cbn [Array.filter] in H.
    apply (proj1 (bind_Ret _ _ _)) in H. destruct H as (b & Hb & H).
    apply (proj1 (bind_Ret _ _ _)) in H. destruct H as (r & Hr & H).
    apply (proj1 (ret_Ret _ _)) in H. subst out.
    assert (Hdec' : forall z c, In z l -> f z = Ret c -> (c = true <-> P z))
      by (intros z c Hz; apply Hdec; right; exact Hz).
    pose proof (Hdec y b (or_introl eq_refl) Hb) as Hy.
    specialize (IH r Hr Hdec' x).
    pose proof (filter_nil_iff _ _ _ Hr) as Hnil.
    destruct b.
    + (* [y] is kept *)
      split.
      * intros E; injection E as <- ->.
        exists [], l; repeat split; [apply Hy; reflexivity |].
        intros z Hz Pz. cbn [app] in Hz.
        pose proof (proj1 Hnil eq_refl z Hz) as Hfz.
        apply (Hdec' z false Hz Hfz) in Pz; discriminate.
      * intros (before & after & E & Px & Hnone).
        destruct before as [| y' before]; cbn [app] in E; injection E as <- ->.
        -- f_equal. apply Hnil. intros z Hz.
           destruct (filter_ran _ _ _ Hr z Hz) as [[|] Hfz]; [| exact Hfz].
           exfalso. apply (Hnone z Hz). apply (Hdec' z true Hz Hfz); reflexivity.
        -- exfalso. apply (Hnone y (or_introl eq_refl)). apply Hy; reflexivity.
    + (* [y] is dropped *)
      assert (Hny : ~ P y) by (intros Py; apply Hy in Py; discriminate).
      rewrite IH. split.
      * intros (before & after & -> & Px & Hnone).
        exists (y :: before), after; repeat split; [exact Px |].
        intros z [<- | Hz]; [exact Hny | exact (Hnone z Hz)].
      * intros (before & after & E & Px & Hnone).
        destruct before as [| y' before]; cbn [app] in E; injection E as <- ->.
        -- contradiction.
        -- exists before, after; repeat split; [exact Px |].
           intros z Hz. apply Hnone. right; exact Hz.
Qed.

Lemma length_one {A : Type} (l : list A) :
  length l = 1 <-> exists x, l = [x].
Proof.
  split.
  - destruct l as [| x [| y l]]; try discriminate. intros _; exists x; reflexivity.
  - intros [x ->]; reflexivity.
Qed.

Lemma exactly_one_result {A : Type} (P : A -> Prop) (l out : list A) (status : nat) :
  (forall x, out = [x] <-> TheOnly P l x) ->
  forall res : option A * option HttpResponseInit,
    res = (if negb (Nat.eqb (length out) 1)
           then (None, Some (statusOnly status))
           else (nth_error out 0, None)) ->
    (forall x, res = (Some x, None) <-> TheOnly P l x) /\
    (res = (None, Some (statusOnly status)) <-> ~ exists x, TheOnly P l x).
Proof.
  intros Hout res ->.
  destruct (Nat.eqb_spec (length out) 1) as [E | E]; cbn [negb].
  - apply length_one in E. destruct E as [x0 ->]. cbn [nth_error]. split.
    + intros x. rewrite <- Hout. split; intros H; injection H as ->; reflexivity.
    + split; [discriminate |]. intros H; exfalso; apply H.
      exists x0. apply Hout. reflexivity.
  - assert (Hnone : ~ exists x, TheOnly P l x).
    { intros [x Hx]. apply Hout in Hx. subst out. apply E; reflexivity. }
    split.
    + intros x; split; [discriminate |]. intros Hx; exfalso; apply Hnone; eauto.
    + split; [intros _; exact Hnone | reflexivity].
Qed.

(** ** The resource fetcher *)

Ltac lawful_kind :=
  constructor;
  [ reflexivity
  | reflexivity
  | intros [] t E; try discriminate E; injection E as ->; reflexivity
  | intros [] E; try discriminate E; eexists; reflexivity ].

#[global] Instance Lawful_Patient : LawfulKind fhirPatient.
Proof. lawful_kind. Qed.

#[global] Instance Lawful_Device : LawfulKind fhirDevice.
Proof. lawful_kind. Qed.

#[global] Instance Lawful_Observation : LawfulKind fhirObservation.
Proof. lawful_kind. Qed.

#[global] Instance Lawful_Practitioner : LawfulKind Practitioner.
Proof. lawful_kind. Qed.

#[global] Instance Lawful_PractitionerRole : LawfulKind PractitionerRole.
Proof. lawful_kind. Qed.

#[global] Instance Lawful_Consent : LawfulKind Consent.
Proof. lawful_kind. Qed.

Section Fetcher.

Variable fetchJson : string -> option string -> js Bundle.
Context {T : Type} `{LawfulKind T}.
Variables (authToken : option string) (body : Bundle).
Hypothesis fetched :
  fetchJson (fhirURL ++ "/" ++ endpoint (T := T)) authToken = Ret body.

(** Any body not tagged [Bundle] is answered with status 500. *)
Lemma getRessources_not_Bundle :
  bundle_resourceType body <> Some "Bundle" ->
  getRessources fetchJson T authToken = Ret (None, Some (statusOnly 500)).
Proof.
  intros Htag. unfold getRessources. rewrite fetched.
  cbn [bind Monad_js Monad_either].
  apply strictEq_false in Htag. rewrite Htag. reflexivity.
Qed.

(** On a bundle whose entries all carry a resource, the fetcher returns the
    resources tagged with the requested kind, and only those. *)
Lemma getRessources_Bundle (entries : list BundleEntry) :
  bundle_resourceType body = Some "Bundle" ->
  bundle_entry body = Some entries ->
  (forall entry, In entry entries -> entry_resource entry <> None) ->
  exists ressources,
    getRessources fetchJson T authToken = Ret (Some ressources, None) /\
    forall t, In t ressources <->
              exists entry, In entry entries /\ entry_resource entry = Some (upcast t).
Proof.
  intros Htag Hentries Hres. unfold getRessources. rewrite fetched.
  cbn [bind Monad_js Monad_either].
  apply strictEq_true in Htag. rewrite Htag, Hentries.
  cbn [negb receiver bind ret Monad_js Monad_either].
  match goal with
  | |- context [Array.filter ?f entries] =>
      destruct (filter_total f entries) as [kept Hkept];
      [ intros entry Hin; specialize (Hres entry Hin);
        destruct (entry_resource entry); [eexists; reflexivity | contradiction]
      | rewrite Hkept; pose proof (filter_In f entries kept Hkept) as Hin ]
  end.
  eexists; split; [reflexivity |].
  intros t. rewrite in_flat_map. split.
  - intros (entry & Hk & Ht). apply Hin in Hk. destruct Hk as [He _].
    exists entry; split; [exact He |].
    destruct (entry_resource entry) as [r |]; cbn [optChain] in Ht; [| destruct Ht].
    destruct (downcast r) as [t' |] eqn:E; [| destruct Ht].
    destruct Ht as [<- | []]. f_equal. apply downcast_Some; exact E.
  - intros (entry & He & Hr). exists entry; split.
    + apply Hin. split; [exact He |]. rewrite Hr. js_red.
      rewrite upcast_tag, String.eqb_refl. reflexivity.
    + rewrite Hr. cbn [optChain]. rewrite downcast_upcast. left; reflexivity.
Qed.

(** The cast after the tag filter drops nothing. *)
Lemma getRessources_cast_total (entries kept : list BundleEntry) :
  Array.filter (fun entry =>
    tag <- field (entry_resource entry) resourceType ;;
    ret (String.eqb tag (endpoint (T := T)))) entries = Ret kept ->
  length (flat_map (fun entry =>
            match optChain (entry_resource entry) downcast with
            | Some t => [t]
            | None => []
            end) kept)
  = length kept.
Proof.
  intros Hkept.
  assert (Hall : forall entry, In entry kept ->
            exists t : T, optChain (entry_resource entry) downcast = Some t).
  { intros entry Hin. apply (filter_In _ _ _ Hkept) in Hin.
    destruct Hin as [_ Htag]. js_inv. subst.
    match goal with E : entry_resource entry = Some _ |- _ => rewrite E end.
    apply tagged_downcast. assumption. }
  clear Hkept. induction kept as [| entry kept IH]; [reflexivity |].
  cbn [flat_map]. destruct (Hall entry (or_introl eq_refl)) as [t ->].
  cbn [app length]. f_equal. apply IH.
  intros e He. apply Hall. right; exact He.
Qed.

End Fetcher.

(** ** Practitioner and role resolution *)

Section Resolution.

Variable fetchJson : string -> option string -> js Bundle.
Variable authToken : option string.

Lemma identifier_callback_decides (userId : option string) (practitioner : Practitioner) :
  exists b,
    match prac_identifier practitioner with
    | Some identifiers =>
        Array.some (fun identifier =>
          ret (strictEq (ident_value identifier) userId)) identifiers
    | None => ret false
    end = Ret b /\
    (b = true <-> identifiedBy userId practitioner).
Proof.
  unfold identifiedBy.
  destruct (prac_identifier practitioner) as [identifiers |].
  - destruct (some_total (fun identifier =>
      ret (strictEq (ident_value identifier) userId)) identifiers) as [b Hb].
    { intros identifier _; eexists; reflexivity. }
    exists b; split; [exact Hb |]. split.
    + intros ->. apply some_true in Hb. destruct Hb as (identifier & Hin & H).
      js_inv. eauto.
    + intros (identifiers' & identifier & E & Hin & Hv). injection E as <-.
      apply (some_Ret_witness _ _ _ identifier Hb Hin).
      apply ret_Ret. apply strictEq_true. exact Hv.
  - exists false; split; [reflexivity |]. split; [discriminate |].
    intros (identifiers & identifier & E & _); discriminate.
Qed.

Lemma getUserPractitioner_resolution (userId : option string)
    (practitioners : list Practitioner) :
  getRessources fetchJson Practitioner authToken = Ret (Some practitioners, None) ->
  exists res,
    getUserPractitioner fetchJson authToken userId = Ret res /\
    (forall practitioner,
       res = (Some practitioner, None) <->
       TheOnly (identifiedBy userId) practitioners practitioner) /\
    (res = (None, Some (statusOnly 403)) <->
     ~ exists practitioner, TheOnly (identifiedBy userId) practitioners practitioner).
Proof.
  intros Hfetch.
  unfold getUserPractitioner. rewrite Hfetch.
  cbn [bind Monad_js Monad_either receiver ret].
  match goal with
  | |- context [Array.filter ?f practitioners] =>
      destruct (filter_total f practitioners) as [out Hout];
      [ intros p _;
        destruct (identifier_callback_decides userId p) as (b & Hb & _);
        exists b; exact Hb
      | assert (Hone : forall x, out = [x]
                       <-> TheOnly (identifiedBy userId) practitioners x)
          by (apply (filter_TheOnly f _ practitioners out Hout);
              intros p b _ Hb;
              destruct (identifier_callback_decides userId p) as (b' & Hb' & Hdec);
              pose proof (eq_trans (eq_sym Hb') Hb) as E;
              injection E as ->; exact Hdec) ]
  end.
  rewrite Hout.
  exists (if negb (Nat.eqb (length out) 1)
          then (None, Some (statusOnly 403))
          else (nth_error out 0, None)).
  split; [destruct (negb _); reflexivity |].
  apply (exactly_one_result _ _ _ 403 Hone). reflexivity.
Qed.


Lemma role_callback_decides (practitioner : Practitioner)
    (practitionerRole : PractitionerRole) (b : bool) :
  (r <- field (role_practitioner practitionerRole) ref_reference ;;
   r <- receiver r ;;
   id <- field (Some practitioner) prac_id ;;
   ret (endsWith r ("Practitioner/" ++ ToString id))) = Ret b ->
  (b = true <-> roleOf practitioner practitionerRole).
Proof.
  intros H. js_inv. subst.
  match goal with E : Some _ = Some _ |- _ => injection E as <- end.
  unfold roleOf, suffixMatches.
  match goal with E : role_practitioner _ = Some _ |- _ => rewrite E end.
  cbn [optChain ToString].
  match goal with E : ref_reference _ = Some _ |- _ => rewrite E end.
  split.
  - intros E. eexists; split; [reflexivity | exact E].
  - intros (s & E & Hs). injection E as <-. exact Hs.
Qed.

Lemma role_callback_total (practitioner : Practitioner)
    (practitionerRole : PractitionerRole) :
  referenceReadable (role_practitioner practitionerRole) ->
  exists b,
    (r <- field (role_practitioner practitionerRole) ref_reference ;;
     r <- receiver r ;;
     id <- field (Some practitioner) prac_id ;;
     ret (endsWith r ("Practitioner/" ++ ToString id))) = Ret b.
Proof.
  intros (r & s & -> & Hs). js_red. rewrite Hs. eexists; reflexivity.
Qed.

Lemma getUserPractitionerRole_resolution (practitioner : Practitioner)
    (practitionerRoles : list PractitionerRole) :
  getRessources fetchJson PractitionerRole authToken
  = Ret (Some practitionerRoles, None) ->
  ((forall practitionerRole, In practitionerRole practitionerRoles ->
      referenceReadable (role_practitioner practitionerRole)) ->
   exists res,
     getUserPractitionerRole fetchJson authToken (Some practitioner) = Ret res) /\
  (forall res,
     getUserPractitionerRole fetchJson authToken (Some practitioner) = Ret res ->
     (forall practitionerRole,
        res = (Some practitionerRole, None) <->
        TheOnly (roleOf practitioner) practitionerRoles practitionerRole) /\
     (res = (None, Some (statusOnly 500)) <->
      ~ exists practitionerRole,
          TheOnly (roleOf practitioner) practitionerRoles practitionerRole)).
Proof.
  intros Hfetch.
  unfold getUserPractitionerRole. rewrite Hfetch.
  cbn [bind Monad_js Monad_either receiver ret].
  match goal with
  | |- context [Array.filter ?f practitionerRoles] => set (callback := f)
  end.
  split.
  - intros Hread.
    destruct (filter_total callback practitionerRoles) as [out Hout].
    { intros r Hr. exact (role_callback_total practitioner r (Hread r Hr)). }
    rewrite Hout. destruct (negb _); eexists; reflexivity.
  - intros res H.
    destruct (Array.filter callback practitionerRoles) as [e | out] eqn:Hout;
      [discriminate |].
    assert (Hone : forall x, out = [x]
                   <-> TheOnly (roleOf practitioner) practitionerRoles x).
    { apply (filter_TheOnly callback _ practitionerRoles out Hout).
      intros r b _ Hb. exact (role_callback_decides practitioner r b Hb). }
    apply (exactly_one_result _ _ _ 500 Hone).
    destruct (negb _); injection H as <-; reflexivity.
Qed.

End Resolution.

(** * The membership predicate and the patient stage *)

(** C4 — Membership correctness.  Whenever the patient filter returns, a
    patient is in [filteredPatients] if and only if it was fetched and its
    managing-organization reference equals the role's organization reference
    exactly; the comparison is [===] on the two reference strings, so two
    absent strings compare equal as well.  The filter returns for every role
    that carries an organization. *)
Theorem filteredPatients_membership
    (patients : list fhirPatient) (practitionerRole : PractitionerRole) :
  (role_organization practitionerRole <> None ->
   exists out, filteredPatients patients practitionerRole = Ret out) /\
  (forall out, filteredPatients patients practitionerRole = Ret out ->
   forall patient,
     In patient out <->
     In patient patients /\
     managingOrganizationRef patient = organizationRef practitionerRole).
Proof.
  unfold filteredPatients; split.
  - intros Ho. apply filter_total. intros patient _.
    eexists. apply isPatientInPractitionerOrganization_Ret.
    split; [exact Ho | reflexivity].
  - intros out H patient. rewrite (filter_In _ _ _ H patient).
    rewrite isPatientInPractitionerOrganization_Ret.
    split.
    + intros (Hin & _ & Heq). symmetry in Heq.
      apply strictEq_true in Heq. tauto.
    + intros (Hin & Heq). split; [exact Hin |].
      destruct (filter_ran _ _ _ H patient Hin) as [b Hb].
      apply isPatientInPractitionerOrganization_Ret in Hb.
      split; [tauto |]. symmetry; apply strictEq_true; exact Heq.
Qed.

Lemma filteredPatients_membership_witness :
  filteredPatients [Scenario.P1; Scenario.P2; Scenario.P3] Scenario.R1
  = Ret [Scenario.P1] /\
  forall patient,
    In patient [Scenario.P1] <->
    In patient [Scenario.P1; Scenario.P2; Scenario.P3] /\
    managingOrganizationRef patient = organizationRef Scenario.R1.
Proof.
  split; [reflexivity |].
  apply (proj2 (filteredPatients_membership
                  [Scenario.P1; Scenario.P2; Scenario.P3] Scenario.R1)).
  reflexivity.
Defined.

(** C10, as the code has it — For every patient whose managing-organization
    reference is absent and every practitioner role whose organization
    reference is present, the membership predicate does not fail and returns
    false, so such a patient is excluded from [filteredPatients]. *)
Theorem absent_managingOrganization_excluded
    (patient : fhirPatient) (practitionerRole : PractitionerRole) (org : string) :
  managingOrganizationRef patient = None ->
  organizationRef practitionerRole = Some org ->
  isPatientInPractitionerOrganization patient practitionerRole = Ret false /\
  forall patients, exists out,
    filteredPatients patients practitionerRole = Ret out /\ ~ In patient out.
Proof.
  intros Hp Hr.
  assert (Ho : role_organization practitionerRole <> None).
  { unfold organizationRef in Hr.
    destruct (role_organization practitionerRole); [discriminate | discriminate Hr]. }
  assert (Hf : isPatientInPractitionerOrganization patient practitionerRole = Ret false).
  { apply isPatientInPractitionerOrganization_Ret. split; [exact Ho |].
    rewrite Hp, Hr; reflexivity. }
  split; [exact Hf |].
  intros patients.
  destruct (filter_total (fun p => isPatientInPractitionerOrganization p practitionerRole)
              patients) as [out Hout].
  { intros p _. eexists. apply isPatientInPractitionerOrganization_Ret.
    split; [exact Ho | reflexivity]. }
  exists out; split; [exact Hout |].
  intros Hin. apply (filter_In _ _ _ Hout) in Hin. destruct Hin as [_ Hin].
  rewrite Hf in Hin; discriminate.
Qed.

Lemma absent_managingOrganization_excluded_witness :
  isPatientInPractitionerOrganization Scenario.P3 Scenario.R1 = Ret false /\
  forall patients, exists out,
    filteredPatients patients Scenario.R1 = Ret out /\ ~ In Scenario.P3 out.
Proof.
  apply (absent_managingOrganization_excluded Scenario.P3 Scenario.R1 "Org/1");
    reflexivity.
Defined.

(** C10 as stated fails: with a role whose organization carries no reference
    string, [undefined === undefined] holds and a patient without managing
    organization passes the filter; with a role without organization the
    predicate throws. *)
Lemma absent_managingOrganization_counterexample :
  managingOrganizationRef Scenario.P3 = None /\
  isPatientInPractitionerOrganization
    Scenario.P3 Scenario.roleWithoutOrganizationReference = Ret true /\
  filteredPatients [Scenario.P1; Scenario.P3] Scenario.roleWithoutOrganizationReference
  = Ret [Scenario.P3] /\
  isPatientInPractitionerOrganization
    Scenario.P3 Scenario.roleWithoutOrganization = Throw TypeError.
Proof. repeat split. Qed.

(** * The consent evaluator *)

(** C1 — Whenever the Consent Evaluator returns, it permits the device if and
    only if some consent record satisfies all four conditions of section 4.6
    as independent conjuncts over the whole record: provision type [permit],
    an actor-grant with role-code [GRANTEE], an actor-grant whose reference
    suffix-matches the role's id, and a patient-reference equal to the
    device's.  The patient comparison, which the code writes inside the
    per-actor test, does not depend on the actor that matches.  The evaluator
    returns for all consents and devices whose dereferenced properties are
    present. *)
Theorem isPractitionerRolePermitted_independent_conditions
    (consents : list Consent) (practitionerRole : PractitionerRole)
    (device : fhirDevice) :
  ((forall consent, In consent consents -> consentReadable consent) ->
   dev_patient device <> None ->
   exists b, isPractitionerRolePermitted consents practitionerRole device = Ret b) /\
  (forall b, isPractitionerRolePermitted consents practitionerRole device = Ret b ->
   (b = true <->
    exists consent,
      In consent consents /\
      provisionIsPermit consent /\
      hasGranteeActor consent /\
      actorMatchesRole consent practitionerRole /\
      samePatient consent device)).
Proof.
  split.
  - apply isPractitionerRolePermitted_total.
  - intros b H. exact (isPractitionerRolePermitted_spec _ _ _ _ H).
Qed.

Lemma isPractitionerRolePermitted_independent_conditions_witness :
  isPractitionerRolePermitted [Scenario.consentP2] Scenario.R1 Scenario.D1 = Ret true /\
  (true = true <->
   exists consent,
     In consent [Scenario.consentP2] /\
     provisionIsPermit consent /\
     hasGranteeActor consent /\
     actorMatchesRole consent Scenario.R1 /\
     samePatient consent Scenario.D1).
Proof.
  split; [reflexivity |].
  apply (proj2 (isPractitionerRolePermitted_independent_conditions
                  [Scenario.consentP2] Scenario.R1 Scenario.D1)).
  reflexivity.
Defined.

(** * The device and observation stages *)

(** C2 — Device OR-correctness.  Whenever the device filter returns, a device
    is in [filteredDevices] if and only if it was fetched and either its
    patient-reference suffix-matches the id of a patient in
    [filteredPatients], or its owner reference equals the role's organization
    reference and a consent qualifies (section 4.6).  The filter returns for
    all inputs whose dereferenced properties are present. *)
Theorem filteredDevices_membership
    (fps : list fhirPatient) (consents : list Consent)
    (practitionerRole : PractitionerRole) (devices : list fhirDevice) :
  (role_organization practitionerRole <> None ->
   (forall device, In device devices -> deviceReadable device) ->
   (forall consent, In consent consents -> consentReadable consent) ->
   exists out, filteredDevices fps consents practitionerRole devices = Ret out) /\
  (forall out, filteredDevices fps consents practitionerRole devices = Ret out ->
   forall device,
     In device out <->
     In device devices /\
     ((exists patient, In patient fps /\
                       suffixMatches (dev_patient device) (pat_id patient))
      \/ (ownerRef device = organizationRef practitionerRole /\
          consentGranted consents practitionerRole device))).
Proof.
  unfold filteredDevices; split.
  - intros Ho Hd Hc. apply filter_total. intros device Hin.
    apply deviceVisible_total; auto.
  - intros out H device. rewrite (filter_In _ _ _ H device).
    split; intros [Hin Hv]; (split; [exact Hin |]).
    + apply (deviceVisible_spec _ _ _ _ _ Hv). reflexivity.
    + destruct (filter_ran _ _ _ H device Hin) as [b Hb].
      rewrite Hb. f_equal. apply (deviceVisible_spec _ _ _ _ _ Hb). exact Hv.
Qed.

Lemma filteredDevices_membership_witness :
  filteredDevices [Scenario.P1] [Scenario.consentP2] Scenario.R1
    [Scenario.D1; Scenario.D2; Scenario.D3]
  = Ret [Scenario.D1; Scenario.D2] /\
  forall device,
    In device [Scenario.D1; Scenario.D2] <->
    In device [Scenario.D1; Scenario.D2; Scenario.D3] /\
    ((exists patient, In patient [Scenario.P1] /\
                      suffixMatches (dev_patient device) (pat_id patient))
     \/ (ownerRef device = organizationRef Scenario.R1 /\
         consentGranted [Scenario.consentP2] Scenario.R1 device)).
Proof.
  split; [reflexivity |].
  apply (proj2 (filteredDevices_membership [Scenario.P1] [Scenario.consentP2]
                  Scenario.R1 [Scenario.D1; Scenario.D2; Scenario.D3])).
  reflexivity.
Defined.

(** C3 — Observation dependency.  Whenever the observation filter returns, an
    observation is in [filteredObservations] if and only if it was fetched
    and its subject-reference suffix-matches the id of a patient in
    [filteredPatients] or its device-reference suffix-matches the id of a
    device in the already computed [filteredDevices].  The filter returns
    for all observations whose subject and device references are present. *)
Theorem filteredObservations_membership
    (fps : list fhirPatient) (fds : list fhirDevice)
    (observations : list fhirObservation) :
  ((forall observation, In observation observations ->
                        observationReadable observation) ->
   exists out, filteredObservations fps fds observations = Ret out) /\
  (forall out, filteredObservations fps fds observations = Ret out ->
   forall observation,
     In observation out <->
     In observation observations /\
     ((exists patient, In patient fps /\
                       suffixMatches (obs_subject observation) (pat_id patient))
      \/ (exists device, In device fds /\
                         suffixMatches (obs_device observation) (dev_id device)))).
Proof.
  unfold filteredObservations; split.
  - intros Ho. apply filter_total. intros observation Hin.
    apply observationVisible_total; auto.
  - intros out H observation. rewrite (filter_In _ _ _ H observation).
    split; intros [Hin Hv]; (split; [exact Hin |]).
    + apply (observationVisible_spec _ _ _ _ Hv). reflexivity.
    + destruct (filter_ran _ _ _ H observation Hin) as [b Hb].
      rewrite Hb. f_equal. apply (observationVisible_spec _ _ _ _ Hb). exact Hv.
Qed.

Lemma filteredObservations_membership_witness :
  filteredObservations [Scenario.P1] [Scenario.D1; Scenario.D2]
    [Scenario.O1; Scenario.O2; Scenario.O3]
  = Ret [Scenario.O1; Scenario.O2] /\
  forall observation,
    In observation [Scenario.O1; Scenario.O2] <->
    In observation [Scenario.O1; Scenario.O2; Scenario.O3] /\
    ((exists patient, In patient [Scenario.P1] /\
                      suffixMatches (obs_subject observation) (pat_id patient))
     \/ (exists device, In device [Scenario.D1; Scenario.D2] /\
                        suffixMatches (obs_device observation) (dev_id device))).
Proof.
  split; [reflexivity |].
  apply (proj2 (filteredObservations_membership [Scenario.P1]
                  [Scenario.D1; Scenario.D2]
                  [Scenario.O1; Scenario.O2; Scenario.O3])).
  reflexivity.
Defined.

(** C5 — Subset invariant.  Whatever a filter stage returns is contained in
    its input and is no longer than it: [filteredPatients] in the patients,
    [filteredDevices] in the devices, [filteredObservations] in the
    observations. *)
Theorem filter_stages_never_enlarge :
  (forall patients practitionerRole out,
     filteredPatients patients practitionerRole = Ret out ->
     incl out patients /\ length out <= length patients) /\
  (forall fps consents practitionerRole devices out,
     filteredDevices fps consents practitionerRole devices = Ret out ->
     incl out devices /\ length out <= length devices) /\
  (forall fps fds observations out,
     filteredObservations fps fds observations = Ret out ->
     incl out observations /\ length out <= length observations).
Proof.
  unfold filteredPatients, filteredDevices, filteredObservations.
  repeat split;
    solve [eapply filter_incl; eassumption | eapply filter_length; eassumption].
Qed.

Lemma filter_stages_never_enlarge_witness :
  (incl [Scenario.P1] [Scenario.P1; Scenario.P2; Scenario.P3] /\ 1 <= 3) /\
  (incl [Scenario.D1; Scenario.D2] [Scenario.D1; Scenario.D2; Scenario.D3] /\ 2 <= 3) /\
  (incl [Scenario.O1; Scenario.O2] [Scenario.O1; Scenario.O2; Scenario.O3] /\ 2 <= 3).
Proof.
  destruct filter_stages_never_enlarge as (Hp & Hd & Ho).
  split; [| split].
  - apply (Hp [Scenario.P1; Scenario.P2; Scenario.P3] Scenario.R1 [Scenario.P1]).
    reflexivity.
  - apply (Hd [Scenario.P1] [Scenario.consentP2] Scenario.R1
              [Scenario.D1; Scenario.D2; Scenario.D3] [Scenario.D1; Scenario.D2]).
    reflexivity.
  - apply (Ho [Scenario.P1] [Scenario.D1; Scenario.D2]
              [Scenario.O1; Scenario.O2; Scenario.O3] [Scenario.O1; Scenario.O2]).
    reflexivity.
Defined.

(** * Practitioner and role resolution *)

(** C6 — Resolution cardinality.  Over the fetched practitioners, practitioner
    resolution always returns; it succeeds with [practitioner] if and only if
    [practitioner] is the only one with an identifier value equal to the
    subject id, and answers 403 if and only if there is no such single one.
    Over the fetched roles, role resolution returns whenever every role's
    practitioner-reference is present; whenever it returns, it succeeds with
    [practitionerRole] if and only if that is the only role whose
    practitioner-reference ends with ["Practitioner/" + practitioner.id], and
    answers 500 if and only if there is no such single one. *)
Theorem resolution_needs_exactly_one
    (fetchJson : string -> option string -> js Bundle) (authToken : option string) :
  (forall userId practitioners,
     getRessources fetchJson Practitioner authToken = Ret (Some practitioners, None) ->
     exists res,
       getUserPractitioner fetchJson authToken userId = Ret res /\
       (forall practitioner,
          res = (Some practitioner, None) <->
          TheOnly (identifiedBy userId) practitioners practitioner) /\
       (res = (None, Some (statusOnly 403)) <->
        ~ exists practitioner,
            TheOnly (identifiedBy userId) practitioners practitioner)) /\
  (forall practitioner practitionerRoles,
     getRessources fetchJson PractitionerRole authToken
     = Ret (Some practitionerRoles, None) ->
     ((forall practitionerRole, In practitionerRole practitionerRoles ->
         referenceReadable (role_practitioner practitionerRole)) ->
      exists res,
        getUserPractitionerRole fetchJson authToken (Some practitioner) = Ret res) /\
     (forall res,
        getUserPractitionerRole fetchJson authToken (Some practitioner) = Ret res ->
        (forall practitionerRole,
           res = (Some practitionerRole, None) <->
           TheOnly (roleOf practitioner) practitionerRoles practitionerRole) /\
        (res = (None, Some (statusOnly 500)) <->
         ~ exists practitionerRole,
             TheOnly (roleOf practitioner) practitionerRoles practitionerRole))).
Proof.
  split.
  - intros userId practitioners. apply getUserPractitioner_resolution.
  - intros practitioner practitionerRoles. apply getUserPractitionerRole_resolution.
Qed.

Lemma resolution_needs_exactly_one_witness :
  TheOnly (identifiedBy (Some "oid-7"))
    [Scenario.practitioner7; Scenario.practitioner8; Scenario.practitioner9]
    Scenario.practitioner7 /\
  TheOnly (roleOf Scenario.practitioner7)
    [Scenario.R1; Scenario.R2; Scenario.R3] Scenario.R1.
Proof.
  destruct (resolution_needs_exactly_one Scenario.fetchJson (Some "token-7"))
    as [Hpractitioner Hrole].
  split.
  - destruct (Hpractitioner (Some "oid-7")
                [Scenario.practitioner7; Scenario.practitioner8; Scenario.practitioner9]
                eq_refl) as (res & Hres & Hone & _).
    apply Hone. vm_compute in Hres. injection Hres as <-. reflexivity.
  - destruct (Hrole Scenario.practitioner7
                [Scenario.R1; Scenario.R2; Scenario.R3] eq_refl) as [_ Hpartial].
    apply (Hpartial (Some Scenario.R1, None)); reflexivity.
Defined.

(** * The identity resolver *)

(** C7, as the code has it — For every request whose Authorization header is
    present and whose credential decodes to claims without a subject id, the
    Identity Resolver reports no error: it returns the credential together
    with an undefined subject id, unlike the missing-header case, which
    answers 401.  The handler goes on to fetch the practitioners: a failure
    of that fetch is the failure of the handler, and the response is 403
    unless exactly one fetched practitioner has an identifier without a
    value. *)
Theorem credential_without_subject_proceeds
    (jwtDecode : string -> js JwtCustomPayload)
    (fetchJson : string -> option string -> js Bundle)
    (request : HttpRequest) (token : string) (payload : JwtCustomPayload) :
  req_authorization request = Some token ->
  token <> "" ->
  jwtDecode token = Ret payload ->
  oid payload = None ->
  getAuthTokenAndUserId jwtDecode request = Ret (Some token, None, None) /\
  (forall k e,
     fetchJson (fhirURL ++ "/" ++ "Practitioner") (Some token) = Throw e ->
     withPractitionerRole jwtDecode fetchJson request k = Throw e) /\
  (forall k practitioners,
     getRessources fetchJson Practitioner (Some token) = Ret (Some practitioners, None) ->
     (~ exists practitioner, TheOnly (identifiedBy None) practitioners practitioner) ->
     withPractitionerRole jwtDecode fetchJson request k = Ret (statusOnly 403)).
Proof.
  intros Hheader Hne Hdecode Hoid.
  assert (Hauth : getAuthTokenAndUserId jwtDecode request = Ret (Some token, None, None)).
  { unfold getAuthTokenAndUserId. rewrite Hheader.
    destruct token as [| c token]; [contradiction Hne; reflexivity |].
    cbn [ToBoolean negb ToString]. rewrite Hdecode.
    cbn [bind Monad_js Monad_either ret]. rewrite Hoid. reflexivity. }
  split; [exact Hauth |]. split.
  - intros k e Hfetch. unfold withPractitionerRole. rewrite Hauth.
    cbn [bind Monad_js Monad_either].
    unfold getUserPractitioner, getRessources. cbn [endpoint Kind_Practitioner].
    rewrite Hfetch. reflexivity.
  - intros k practitioners Hfetch Hnone.
    destruct (getUserPractitioner_resolution fetchJson (Some token) None
                practitioners Hfetch) as (res & Hres & _ & H403).
    apply H403 in Hnone. subst res.
    unfold withPractitionerRole. rewrite Hauth.
    cbn [bind Monad_js Monad_either]. rewrite Hres. reflexivity.
Qed.

Lemma credential_without_subject_proceeds_witness :
  getAuthTokenAndUserId Scenario.jwtDecode (Scenario.request "token-without-oid")
  = Ret (Some "token-without-oid", None, None) /\
  (forall k e,
     Scenario.fetchJson (fhirURL ++ "/" ++ "Practitioner") (Some "token-without-oid")
     = Throw e ->
     withPractitionerRole Scenario.jwtDecode Scenario.fetchJson
       (Scenario.request "token-without-oid") k = Throw e) /\
  (forall k practitioners,
     getRessources Scenario.fetchJson Practitioner (Some "token-without-oid")
     = Ret (Some practitioners, None) ->
     (~ exists practitioner, TheOnly (identifiedBy None) practitioners practitioner) ->
     withPractitionerRole Scenario.jwtDecode Scenario.fetchJson
       (Scenario.request "token-without-oid") k = Ret (statusOnly 403)).
Proof.
  apply (credential_without_subject_proceeds Scenario.jwtDecode Scenario.fetchJson
           (Scenario.request "token-without-oid") "token-without-oid"
           {| oid := None |});
    [reflexivity | discriminate | reflexivity | reflexivity].
Defined.

(** C7 as stated fails: a credential without subject id is not rejected.  The
    resolver returns no error, the handler fetches the practitioners with the
    undefined subject id, takes the one practitioner whose identifier has no
    value for the caller, and answers with that practitioner's patients. *)
Lemma credential_without_subject_counterexample :
  getAuthTokenAndUserId Scenario.jwtDecode (Scenario.request "token-without-oid")
  = Ret (Some "token-without-oid", None, None) /\
  getUserPractitioner Scenario.fetchJson (Some "token-without-oid") None
  = Ret (Some Scenario.practitioner9, None) /\
  Patient Scenario.jwtDecode Scenario.fetchJson (Scenario.request "token-without-oid")
  = Ret (jsonBody (getSearchBundle [RPatient Scenario.P1])).
Proof. repeat split. Qed.

(** * Suffix matching on bare ids *)

(** C8 fails on the code: only role resolution matches against a path segment
    ["Practitioner/" + id]; the device, observation and consent tests match
    against the bare id.  A device of patient 21, owned by another
    organization, ends with the id of patient 1 and passes the device filter
    of a practitioner who may see patient 1 only, and its observation passes
    the observation filter; the reference does not end with ["Patient/1"].
    Likewise a consent for role ["XR1"] qualifies for role ["R1"]. *)
Theorem bare_id_suffix_leaks :
  filteredPatients [Scenario.patient1; Scenario.patient21] Scenario.R1
  = Ret [Scenario.patient1] /\
  endsWith "Patient/21" ("Patient/" ++ "1") = false /\
  filteredDevices [Scenario.patient1] [] Scenario.R1 [Scenario.device21]
  = Ret [Scenario.device21] /\
  filteredObservations [Scenario.patient1] [] [Scenario.observation21]
  = Ret [Scenario.observation21] /\
  endsWith "PractitionerRole/XR1" ("PractitionerRole/" ++ "R1") = false /\
  isPractitionerRolePermitted
    [ {| consent_id := Some "C2";
         consent_patient := Scenario.ref "Patient/P2";
         consent_provision := Some
           {| prov_type := Some "permit";
              prov_actor := Some
                [ {| actor_role := Scenario.grantee;
                     actor_reference :=
                       {| ref_reference := Some "PractitionerRole/XR1" |} |} ] |} |} ]
    Scenario.R1 Scenario.D1
  = Ret true.
Proof. repeat split. Qed.

(** * The resource fetcher *)

(** C9 fails on the code: a bundle without [entry] (a search that found
    nothing), or with an entry that carries no resource, passes the
    [resourceType] check and then makes the fetcher throw a [TypeError];
    it neither answers 500 nor returns an empty collection, and the handler
    throws with it. *)
Theorem bundle_without_entries_throws :
  getRessources Scenario.fetchNothing fhirPatient (Some "token-7")
  = Throw TypeError /\
  getRessources
    (fun _ _ => ret {| bundle_resourceType := Some "Bundle";
                       bundle_type := Some "searchset";
                       bundle_entry := Some
                         [ {| entry_fullUrl := Some "urn:uuid:1";
                              entry_resource := None;
                              entry_search_mode := Some "match" |} ] |})
    fhirPatient (Some "token-7")
  = Throw TypeError /\
  Patient Scenario.jwtDecode Scenario.fetchNothing (Scenario.request "token-7")
  = Throw TypeError.
Proof. repeat split. Qed.


(** * The scenarios of section 8 *)

(** 1. Of the patients of two organizations, the practitioner of [Org/1]
    sees [P1]. *)
Example scenario_patients :
  Patient Scenario.jwtDecode Scenario.fetchJson (Scenario.request "token-7")
  = Ret (jsonBody (getSearchBundle [RPatient Scenario.P1])).
Proof. reflexivity. Qed.

(** 2. Without consent records, device [D1] of patient [P2] is excluded. *)
Example scenario_device_without_consent :
  filteredDevices [Scenario.P1] [] Scenario.R1 [Scenario.D1] = Ret [].
Proof. reflexivity. Qed.

(** 3. With the consent of [P2] for role [R1], [D1] is included. *)
Example scenario_device_with_consent :
  Device Scenario.jwtDecode Scenario.fetchJson (Scenario.request "token-7")
  = Ret (jsonBody (getSearchBundle [RDevice Scenario.D1; RDevice Scenario.D2])).
Proof. reflexivity. Qed.

Example scenario_observations :
  Observation Scenario.jwtDecode Scenario.fetchJson (Scenario.request "token-7")
  = Ret (jsonBody (getSearchBundle [RObservation Scenario.O1; RObservation Scenario.O2])).
Proof. reflexivity. Qed.

(** 4. Without Authorization header the answer is 401, whatever the decoder
    and the server do: neither is consulted. *)
Lemma missing_header_unauthorized
    (jwtDecode : string -> js JwtCustomPayload)
    (fetchJson : string -> option string -> js Bundle) (url : string) :
  let request := {| req_url := url; req_authorization := None |} in
  Patient jwtDecode fetchJson request = Ret (statusOnly 401) /\
  Device jwtDecode fetchJson request = Ret (statusOnly 401) /\
  Observation jwtDecode fetchJson request = Ret (statusOnly 401).
Proof. repeat split. Qed.

(** 5. A credential whose subject no practitioner carries is answered 403. *)
Example scenario_unknown_subject :
  Patient Scenario.jwtDecode Scenario.fetchJson (Scenario.request "token-0")
  = Ret (statusOnly 403).
Proof. reflexivity. Qed.


(** * Further properties of the code *)

(** ** What the fetcher and the resolvers can return *)

Section Outcomes.

Variable jwtDecode : string -> js JwtCustomPayload.
Variable fetchJson : string -> option string -> js Bundle.

Lemma getRessources_outcome {T : Type} `{FhirKind T} (authToken : option string)
    (ressources : option (list T)) (httpError : option HttpResponseInit) :
  getRessources fetchJson T authToken = Ret (ressources, httpError) ->
  (ressources = None /\ httpError = Some (statusOnly 500)) \/
  (exists l, ressources = Some l /\ httpError = None).
Proof.
  unfold getRessources. intros Hrun.
  apply (proj1 (bind_Ret _ _ _)) in Hrun. destruct Hrun as (body & _ & Hrun).
  destruct (negb _).
  - apply (proj1 (ret_Ret _ _)) in Hrun. injection Hrun as <- <-. left; split; reflexivity.
  - js_inv. injection Hrun as <- <-. right; eexists; split; reflexivity.
Qed.

Lemma getUserPractitioner_outcome (authToken userId : option string)
    (practitioner : option Practitioner) (httpError : option HttpResponseInit) :
  getUserPractitioner fetchJson authToken userId = Ret (practitioner, httpError) ->
  (practitioner = None /\
   (httpError = Some (statusOnly 500) \/ httpError = Some (statusOnly 403))) \/
  (httpError = None /\
   exists practitioners p,
     getRessources fetchJson Practitioner authToken = Ret (Some practitioners, None) /\
     practitioner = Some p /\
     TheOnly (identifiedBy userId) practitioners p).
Proof.
  intros Hrun.
  destruct (getRessources fetchJson Practitioner authToken) as [e | [fetched err]] eqn:Hfetch.
  - unfold getUserPractitioner in Hrun. rewrite Hfetch in Hrun. discriminate Hrun.
  - destruct (getRessources_outcome _ _ _ Hfetch) as [[-> ->] | (l & -> & ->)].
    + unfold getUserPractitioner in Hrun. rewrite Hfetch in Hrun.
      apply (proj1 (ret_Ret _ _)) in Hrun. injection Hrun as <- <-.
      left; split; [reflexivity | left; reflexivity].
    + destruct (getUserPractitioner_resolution fetchJson authToken userId l Hfetch)
        as (res & Hres & Hone & H403).
      rewrite Hres in Hrun. injection Hrun as ->.
      destruct httpError as [e |].
      * destruct practitioner as [p |].
        -- exfalso.
           unfold getUserPractitioner in Hres. rewrite Hfetch in Hres.
           cbn [bind Monad_js Monad_either receiver ret] in Hres.
           destruct (Array.filter _ l) as [e' | out]; [discriminate Hres |].
           destruct (negb _); injection Hres; discriminate.
        -- left; split; [reflexivity | right].
           unfold getUserPractitioner in Hres. rewrite Hfetch in Hres.
           cbn [bind Monad_js Monad_either receiver ret] in Hres.
           destruct (Array.filter _ l) as [e' | out]; [discriminate Hres |].
           destruct (negb _); injection Hres; intros; subst; [reflexivity | discriminate].
      * right; split; [reflexivity |].
        destruct practitioner as [p |].
        -- exists l, p. repeat split. apply Hone. reflexivity.
        -- exfalso.
           unfold getUserPractitioner in Hres. rewrite Hfetch in Hres.
           cbn [bind Monad_js Monad_either receiver ret] in Hres.
           destruct (Array.filter _ l) as [e' | out]; [discriminate Hres |].
           destruct (Nat.eqb_spec (length out) 1) as [E | E]; cbn [negb] in Hres;
             [| discriminate Hres].
           apply length_one in E. destruct E as [x ->]. discriminate Hres.
Qed.


Lemma single_or_error {A : Type} (out : list A) (status : nat)
    (x : option A) (httpError : option HttpResponseInit) :
  (if negb (Nat.eqb (length out) 1)
   then ret (None, Some (statusOnly status))
   else ret (nth_error out 0, None)) = Ret (x, httpError) ->
  (x = None /\ httpError = Some (statusOnly status)) \/
  (exists y, out = [y] /\ x = Some y /\ httpError = None).
Proof.
  destruct (Nat.eqb_spec (length out) 1) as [E | E]; cbn [negb]; intros Hrun;
    apply (proj1 (ret_Ret _ _)) in Hrun; injection Hrun as <- <-.
  - apply length_one in E. destruct E as [y ->]. right; exists y; repeat split.
  - left; split; reflexivity.
Qed.

Lemma getUserPractitionerRole_outcome (authToken : option string)
    (practitioner : Practitioner)
    (practitionerRole : option PractitionerRole) (httpError : option HttpResponseInit) :
  getUserPractitionerRole fetchJson authToken (Some practitioner)
  = Ret (practitionerRole, httpError) ->
  (practitionerRole = None /\ httpError = Some (statusOnly 500)) \/
  (httpError = None /\
   exists practitionerRoles r,
     getRessources fetchJson PractitionerRole authToken
     = Ret (Some practitionerRoles, None) /\
     practitionerRole = Some r /\
     TheOnly (roleOf practitioner) practitionerRoles r).
Proof.
  intros Hrun.
  destruct (getRessources fetchJson PractitionerRole authToken)
    as [e | [fetched err]] eqn:Hfetch.
  - unfold getUserPractitionerRole in Hrun. rewrite Hfetch in Hrun. discriminate Hrun.
  - destruct (getRessources_outcome _ _ _ Hfetch) as [[-> ->] | (l & -> & ->)].
    + unfold getUserPractitionerRole in Hrun. rewrite Hfetch in Hrun.
      apply (proj1 (ret_Ret _ _)) in Hrun. injection Hrun as <- <-.
      left; split; reflexivity.
    + destruct (getUserPractitionerRole_resolution fetchJson authToken practitioner l
                  Hfetch) as [_ Hpartial].
      destruct (Hpartial _ Hrun) as [Hone _].
      unfold getUserPractitionerRole in Hrun. rewrite Hfetch in Hrun.
      cbn [bind Monad_js Monad_either receiver ret] in Hrun.
      destruct (Array.filter _ l) as [e' | out]; [discriminate Hrun |].
      destruct (single_or_error out 500 _ _ Hrun) as [[-> ->] | (y & -> & -> & ->)].
      * left; split; reflexivity.
      * right; split; [reflexivity |]. exists l, y. repeat split.
        apply Hone. reflexivity.
Qed.

(** The prologue the handlers share either answers 401, 403 or 500, or hands
    the one practitioner role of the one practitioner of the credential's
    subject to the rest of the handler. *)
Lemma withPractitionerRole_outcome (request : HttpRequest)
    (k : option string -> PractitionerRole -> js HttpResponseInit)
    (response : HttpResponseInit) :
  withPractitionerRole jwtDecode fetchJson request k = Ret response ->
  response = statusOnly 401 \/ response = statusOnly 403 \/
  response = statusOnly 500 \/
  exists token payload practitioners practitioner practitionerRoles practitionerRole,
    req_authorization request = Some token /\
    jwtDecode token = Ret payload /\
    getRessources fetchJson Practitioner (Some token) = Ret (Some practitioners, None) /\
    TheOnly (identifiedBy (oid payload)) practitioners practitioner /\
    getRessources fetchJson PractitionerRole (Some token)
    = Ret (Some practitionerRoles, None) /\
    TheOnly (roleOf practitioner) practitionerRoles practitionerRole /\
    k (Some token) practitionerRole = Ret response.
Proof.
  unfold withPractitionerRole, getAuthTokenAndUserId. intros Hrun.
  destruct (req_authorization request) as [[| c token] |] eqn:Hheader;
    cbn [ToBoolean negb ToString] in Hrun;
    try (apply (proj1 (ret_Ret _ _)) in Hrun; left; symmetry; exact Hrun).
  destruct (jwtDecode (String c token)) as [e | payload] eqn:Hdecode;
    [discriminate Hrun |].
  cbn [bind Monad_js Monad_either ret] in Hrun.
  destruct (getUserPractitioner fetchJson (Some (String c token)) (oid payload))
    as [e | [practitioner err]] eqn:Hpractitioner; [discriminate Hrun |].
  destruct (getUserPractitioner_outcome _ _ _ _ Hpractitioner)
    as [[-> [-> | ->]] | (-> & practitioners & p & Hps & -> & Hp)].
  - injection Hrun as <-. tauto.
  - injection Hrun as <-. tauto.
  - destruct (getUserPractitionerRole fetchJson (Some (String c token)) (Some p))
      as [e | [role err]] eqn:Hrole; [discriminate Hrun |].
    destruct (getUserPractitionerRole_outcome _ _ _ _ Hrole)
      as [[-> ->] | (-> & roles & r & Hrs & -> & Hr)].
    + injection Hrun as <-. tauto.
    + right; right; right.
      exists (String c token), payload, practitioners, p, roles, r.
      repeat split; assumption.
Qed.

Lemma fetchOrReturn_outcome {T : Type} `{FhirKind T} (authToken : option string)
    (k : list T -> js HttpResponseInit) (response : HttpResponseInit) :
  fetchOrReturn fetchJson authToken k = Ret response ->
  response = statusOnly 500 \/
  exists ressources,
    getRessources fetchJson T authToken = Ret (Some ressources, None) /\
    k ressources = Ret response.
Proof.
  unfold fetchOrReturn. intros Hrun.
  destruct (getRessources fetchJson T authToken) as [e | [fetched err]] eqn:Hfetch;
    [discriminate Hrun |].
  destruct (getRessources_outcome _ _ _ Hfetch) as [[-> ->] | (l & -> & ->)].
  - injection Hrun as <-. left; reflexivity.
  - right; exists l; split; [reflexivity | exact Hrun].
Qed.

End Outcomes.

(** ** The handlers, end to end *)

Section EndToEnd.

Variable jwtDecode : string -> js JwtCustomPayload.
Variable fetchJson : string -> option string -> js Bundle.

Lemma withPractitionerRole_callerRole (request : HttpRequest)
    (k : option string -> PractitionerRole -> js HttpResponseInit)
    (response : HttpResponseInit) :
  withPractitionerRole jwtDecode fetchJson request k = Ret response ->
  response = statusOnly 401 \/ response = statusOnly 403 \/
  response = statusOnly 500 \/
  exists token practitionerRole,
    callerRole jwtDecode fetchJson request token practitionerRole /\
    k (Some token) practitionerRole = Ret response.
Proof.
  intros Hrun.
  destruct (withPractitionerRole_outcome _ _ _ _ _ Hrun)
    as [H | [H | [H | (token & payload & ps & p & rs & r & H1 & H2 & H3 & H4 & H5 & H6 & Hk)]]];
    [tauto | tauto | tauto |].
  right; right; right. exists token, r. split; [| exact Hk].
  exists payload, ps, p, rs. repeat split; assumption.
Qed.

Lemma filteredPatients_In (patients shown : list fhirPatient)
    (practitionerRole : PractitionerRole) :
  filteredPatients patients practitionerRole = Ret shown ->
  forall patient,
    In patient shown <->
    In patient patients /\
    managingOrganizationRef patient = organizationRef practitionerRole.
Proof.
  unfold filteredPatients. intros H patient.
  rewrite (filter_In _ _ _ H patient). split.
  - intros [Hin Hb]. split; [exact Hin |].
    apply isPatientInPractitionerOrganization_Ret in Hb. destruct Hb as [_ Hb].
    apply strictEq_true. symmetry; exact Hb.
  - intros [Hin Heq]. split; [exact Hin |].
    destruct (filter_ran _ _ _ H patient Hin) as [b Hb]. rewrite Hb. f_equal.
    apply isPatientInPractitionerOrganization_Ret in Hb. destruct Hb as [_ ->].
    apply strictEq_true. exact Heq.
Qed.

Lemma filteredDevices_In (fps : list fhirPatient) (consents : list Consent)
    (practitionerRole : PractitionerRole) (devices shown : list fhirDevice) :
  filteredDevices fps consents practitionerRole devices = Ret shown ->
  forall device,
    In device shown <->
    In device devices /\ deviceEligible fps consents practitionerRole device.
Proof.
  unfold filteredDevices. intros H device.
  rewrite (filter_In _ _ _ H device). split; intros [Hin Hv]; (split; [exact Hin |]).
  - apply (deviceVisible_spec _ _ _ _ _ Hv). reflexivity.
  - destruct (filter_ran _ _ _ H device Hin) as [b Hb].
    rewrite Hb. f_equal. apply (deviceVisible_spec _ _ _ _ _ Hb). exact Hv.
Qed.

Lemma filteredObservations_In (fps : list fhirPatient) (fds : list fhirDevice)
    (observations shown : list fhirObservation) :
  filteredObservations fps fds observations = Ret shown ->
  forall observation,
    In observation shown <->
    In observation observations /\ observationEligible fps fds observation.
Proof.
  unfold filteredObservations. intros H observation.
  rewrite (filter_In _ _ _ H observation).
  split; intros [Hin Hv]; (split; [exact Hin |]).
  - apply (observationVisible_spec _ _ _ _ Hv). reflexivity.
  - destruct (filter_ran _ _ _ H observation Hin) as [b Hb].
    rewrite Hb. f_equal. apply (observationVisible_spec _ _ _ _ Hb). exact Hv.
Qed.

(** X1 — The Patient handler, whenever it responds, answers 401, 403 or 500,
    or a searchset bundle of exactly those fetched patients whose
    managing-organization reference equals the organization reference of the
    caller's one practitioner role. *)
Theorem Patient_response (request : HttpRequest) (response : HttpResponseInit) :
  Patient jwtDecode fetchJson request = Ret response ->
  response = statusOnly 401 \/ response = statusOnly 403 \/
  response = statusOnly 500 \/
  exists token practitionerRole patients shown,
    callerRole jwtDecode fetchJson request token practitionerRole /\
    getRessources fetchJson fhirPatient (Some token) = Ret (Some patients, None) /\
    response = jsonBody (getSearchBundle (map RPatient shown)) /\
    forall patient,
      In patient shown <->
      In patient patients /\
      managingOrganizationRef patient = organizationRef practitionerRole.
Proof.
  unfold Patient. intros Hrun.
  destruct (withPractitionerRole_callerRole _ _ _ Hrun)
    as [H | [H | [H | (token & role & Hrole & Hk)]]]; [tauto | tauto | tauto |].
  destruct (fetchOrReturn_outcome _ _ _ _ Hk) as [H | (patients & Hfetch & Hbody)];
    [tauto |].
  apply (proj1 (bind_Ret _ _ _)) in Hbody. destruct Hbody as (shown & Hshown & Hbody).
  apply (proj1 (ret_Ret _ _)) in Hbody.
  right; right; right. exists token, role, patients, shown.
  split; [exact Hrole |]. split; [exact Hfetch |].
  split; [symmetry; exact Hbody |].
  exact (filteredPatients_In _ _ _ Hshown).
Qed.

(** X2 — The Device handler, whenever it responds, answers 401, 403 or 500,
    or a searchset bundle of exactly those fetched devices that are eligible
    for the caller's role: the patient-reference ends with the id of a
    fetched patient of the role's organization, or the owner reference equals
    the role's organization reference and a fetched consent qualifies. *)
Theorem Device_response (request : HttpRequest) (response : HttpResponseInit) :
  Device jwtDecode fetchJson request = Ret response ->
  response = statusOnly 401 \/ response = statusOnly 403 \/
  response = statusOnly 500 \/
  exists token practitionerRole patients consents devices fps shown,
    callerRole jwtDecode fetchJson request token practitionerRole /\
    getRessources fetchJson fhirPatient (Some token) = Ret (Some patients, None) /\
    getRessources fetchJson Consent (Some token) = Ret (Some consents, None) /\
    getRessources fetchJson fhirDevice (Some token) = Ret (Some devices, None) /\
    response = jsonBody (getSearchBundle (map RDevice shown)) /\
    (forall patient,
       In patient fps <->
       In patient patients /\
       managingOrganizationRef patient = organizationRef practitionerRole) /\
    (forall device,
       In device shown <->
       In device devices /\ deviceEligible fps consents practitionerRole device).
Proof.
  unfold Device. intros Hrun.
  destruct (withPractitionerRole_callerRole _ _ _ Hrun)
    as [H | [H | [H | (token & role & Hrole & Hk)]]]; [tauto | tauto | tauto |].
  destruct (fetchOrReturn_outcome _ _ _ _ Hk) as [H | (patients & Hp & Hk1)];
    [tauto |].
  destruct (fetchOrReturn_outcome _ _ _ _ Hk1) as [H | (consents & Hc & Hk2)];
    [tauto |].
  destruct (fetchOrReturn_outcome _ _ _ _ Hk2) as [H | (devices & Hd & Hbody)];
    [tauto |].
  apply (proj1 (bind_Ret _ _ _)) in Hbody. destruct Hbody as (fps & Hfps & Hbody).
  apply (proj1 (bind_Ret _ _ _)) in Hbody. destruct Hbody as (shown & Hshown & Hbody).
  apply (proj1 (ret_Ret _ _)) in Hbody.
  right; right; right. exists token, role, patients, consents, devices, fps, shown.
  split; [exact Hrole |]. split; [exact Hp |]. split; [exact Hc |].
  split; [exact Hd |]. split; [symmetry; exact Hbody |].
  split; [exact (filteredPatients_In _ _ _ Hfps) |].
  exact (filteredDevices_In _ _ _ _ _ Hshown).
Qed.

(** X3 — The Observation handler, whenever it responds, answers 401, 403 or
    500, or a searchset bundle of exactly those fetched observations whose
    subject-reference ends with the id of a fetched patient of the role's
    organization or whose device-reference ends with the id of a device the
    Device handler would show. *)
Theorem Observation_response (request : HttpRequest) (response : HttpResponseInit) :
  Observation jwtDecode fetchJson request = Ret response ->
  response = statusOnly 401 \/ response = statusOnly 403 \/
  response = statusOnly 500 \/
  exists token practitionerRole patients consents devices observations fps fds shown,
    callerRole jwtDecode fetchJson request token practitionerRole /\
    getRessources fetchJson fhirPatient (Some token) = Ret (Some patients, None) /\
    getRessources fetchJson Consent (Some token) = Ret (Some consents, None) /\
    getRessources fetchJson fhirDevice (Some token) = Ret (Some devices, None) /\
    getRessources fetchJson fhirObservation (Some token)
    = Ret (Some observations, None) /\
    response = jsonBody (getSearchBundle (map RObservation shown)) /\
    (forall patient,
       In patient fps <->
       In patient patients /\
       managingOrganizationRef patient = organizationRef practitionerRole) /\
    (forall device,
       In device fds <->
       In device devices /\ deviceEligible fps consents practitionerRole device) /\
    (forall observation,
       In observation shown <->
       In observation observations /\ observationEligible fps fds observation).
Proof.
  unfold Observation. intros Hrun.
  destruct (withPractitionerRole_callerRole _ _ _ Hrun)
    as [H | [H | [H | (token & role & Hrole & Hk)]]]; [tauto | tauto | tauto |].
  destruct (fetchOrReturn_outcome _ _ _ _ Hk) as [H | (patients & Hp & Hk1)];
    [tauto |].
  destruct (fetchOrReturn_outcome _ _ _ _ Hk1) as [H | (consents & Hc & Hk2)];
    [tauto |].
  destruct (fetchOrReturn_outcome _ _ _ _ Hk2) as [H | (devices & Hd & Hk3)];
    [tauto |].
  destruct (fetchOrReturn_outcome _ _ _ _ Hk3) as [H | (observations & Ho & Hbody)];
    [tauto |].
  apply (proj1 (bind_Ret _ _ _)) in Hbody. destruct Hbody as (fps & Hfps & Hbody).
  apply (proj1 (bind_Ret _ _ _)) in Hbody. destruct Hbody as (fds & Hfds & Hbody).
  apply (proj1 (bind_Ret _ _ _)) in Hbody. destruct Hbody as (shown & Hshown & Hbody).
  apply (proj1 (ret_Ret _ _)) in Hbody.
  right; right; right.
  exists token, role, patients, consents, devices, observations, fps, fds, shown.
  split; [exact Hrole |]. split; [exact Hp |]. split; [exact Hc |].
  split; [exact Hd |]. split; [exact Ho |]. split; [symmetry; exact Hbody |].
  split; [exact (filteredPatients_In _ _ _ Hfps) |].
  split; [exact (filteredDevices_In _ _ _ _ _ Hfds) |].
  exact (filteredObservations_In _ _ _ _ Hshown).
Qed.

End EndToEnd.

Lemma Patient_response_witness :
  exists token practitionerRole patients shown,
    callerRole Scenario.jwtDecode Scenario.fetchJson (Scenario.request "token-7")
      token practitionerRole /\
    getRessources Scenario.fetchJson fhirPatient (Some token)
    = Ret (Some patients, None) /\
    jsonBody (getSearchBundle [RPatient Scenario.P1])
    = jsonBody (getSearchBundle (map RPatient shown)) /\
    forall patient,
      In patient shown <->
      In patient patients /\
      managingOrganizationRef patient = organizationRef practitionerRole.
Proof.
  destruct (Patient_response Scenario.jwtDecode Scenario.fetchJson
              (Scenario.request "token-7")
              (jsonBody (getSearchBundle [RPatient Scenario.P1])) eq_refl)
    as [H | [H | [H | H]]]; [discriminate H | discriminate H | discriminate H | exact H].
Defined.

Lemma Device_response_witness :
  exists token practitionerRole patients consents devices fps shown,
    callerRole Scenario.jwtDecode Scenario.fetchJson (Scenario.request "token-7")
      token practitionerRole /\
    getRessources Scenario.fetchJson fhirPatient (Some token)
    = Ret (Some patients, None) /\
    getRessources Scenario.fetchJson Consent (Some token)
    = Ret (Some consents, None) /\
    getRessources Scenario.fetchJson fhirDevice (Some token)
    = Ret (Some devices, None) /\
    jsonBody (getSearchBundle [RDevice Scenario.D1; RDevice Scenario.D2])
    = jsonBody (getSearchBundle (map RDevice shown)) /\
    (forall patient,
       In patient fps <->
       In patient patients /\
       managingOrganizationRef patient = organizationRef practitionerRole) /\
    (forall device,
       In device shown <->
       In device devices /\ deviceEligible fps consents practitionerRole device).
Proof.
  destruct (Device_response Scenario.jwtDecode Scenario.fetchJson
              (Scenario.request "token-7")
              (jsonBody (getSearchBundle [RDevice Scenario.D1; RDevice Scenario.D2]))
              eq_refl)
    as [H | [H | [H | H]]]; [discriminate H | discriminate H | discriminate H | exact H].
Defined.

Lemma Observation_response_witness :
  exists token practitionerRole patients consents devices observations fps fds shown,
    callerRole Scenario.jwtDecode Scenario.fetchJson (Scenario.request "token-7")
      token practitionerRole /\
    getRessources Scenario.fetchJson fhirPatient (Some token)
    = Ret (Some patients, None) /\
    getRessources Scenario.fetchJson Consent (Some token)
    = Ret (Some consents, None) /\
    getRessources Scenario.fetchJson fhirDevice (Some token)
    = Ret (Some devices, None) /\
    getRessources Scenario.fetchJson fhirObservation (Some token)
    = Ret (Some observations, None) /\
    jsonBody (getSearchBundle [RObservation Scenario.O1; RObservation Scenario.O2])
    = jsonBody (getSearchBundle (map RObservation shown)) /\
    (forall patient,
       In patient fps <->
       In patient patients /\
       managingOrganizationRef patient = organizationRef practitionerRole) /\
    (forall device,
       In device fds <->
       In device devices /\ deviceEligible fps consents practitionerRole device) /\
    (forall observation,
       In observation shown <->
       In observation observations /\ observationEligible fps fds observation).
Proof.
  destruct (Observation_response Scenario.jwtDecode Scenario.fetchJson
              (Scenario.request "token-7")
              (jsonBody (getSearchBundle
                 [RObservation Scenario.O1; RObservation Scenario.O2])) eq_refl)
    as [H | [H | [H | H]]]; [discriminate H | discriminate H | discriminate H | exact H].
Defined.

(** ** Credentials *)

(** X4 — Without an Authorization header, or with an empty one, each of the
    three handlers answers 401; the decoder and the server play no part. *)
Theorem no_credential_unauthorized
    (jwtDecode : string -> js JwtCustomPayload)
    (fetchJson : string -> option string -> js Bundle) (request : HttpRequest) :
  req_authorization request = None \/ req_authorization request = Some "" ->
  Patient jwtDecode fetchJson request = Ret (statusOnly 401) /\
  Device jwtDecode fetchJson request = Ret (statusOnly 401) /\
  Observation jwtDecode fetchJson request = Ret (statusOnly 401).
Proof.
  intros Hheader.
  assert (H : forall k, withPractitionerRole jwtDecode fetchJson request k
                        = Ret (statusOnly 401)).
  { intros k. unfold withPractitionerRole, getAuthTokenAndUserId.
    destruct Hheader as [-> | ->]; reflexivity. }
  unfold Patient, Device, Observation. rewrite !H. repeat split.
Qed.

Lemma no_credential_unauthorized_witness :
  Patient Scenario.jwtDecode Scenario.fetchJson
    {| req_url := "/api/Patient"; req_authorization := Some "" |}
  = Ret (statusOnly 401) /\
  Device Scenario.jwtDecode Scenario.fetchJson
    {| req_url := "/api/Patient"; req_authorization := Some "" |}
  = Ret (statusOnly 401) /\
  Observation Scenario.jwtDecode Scenario.fetchJson
    {| req_url := "/api/Patient"; req_authorization := Some "" |}
  = Ret (statusOnly 401).
Proof.
  apply (no_credential_unauthorized Scenario.jwtDecode Scenario.fetchJson
           {| req_url := "/api/Patient"; req_authorization := Some "" |}).
  right; reflexivity.
Defined.

(** X5 — A credential the decoder rejects is not answered with 401: the
    decoder's exception leaves the handler uncaught, before any fetch. *)
Theorem undecodable_credential_throws
    (jwtDecode : string -> js JwtCustomPayload)
    (fetchJson : string -> option string -> js Bundle)
    (request : HttpRequest) (token : string) (e : exn) :
  req_authorization request = Some token ->
  token <> "" ->
  jwtDecode token = Throw e ->
  getAuthTokenAndUserId jwtDecode request = Throw e /\
  Patient jwtDecode fetchJson request = Throw e /\
  Device jwtDecode fetchJson request = Throw e /\
  Observation jwtDecode fetchJson request = Throw e.
Proof.
  intros Hheader Hne Hdecode.
  assert (Hauth : getAuthTokenAndUserId jwtDecode request = Throw e).
  { unfold getAuthTokenAndUserId. rewrite Hheader.
    destruct token as [| c token]; [contradiction Hne; reflexivity |].
    cbn [ToBoolean negb ToString]. rewrite Hdecode. reflexivity. }
  assert (H : forall k, withPractitionerRole jwtDecode fetchJson request k = Throw e).
  { intros k. unfold withPractitionerRole. rewrite Hauth. reflexivity. }
  unfold Patient, Device, Observation. rewrite !H. repeat split. exact Hauth.
Qed.

Lemma undecodable_credential_throws_witness :
  getAuthTokenAndUserId Scenario.jwtDecode (Scenario.request "not-a-token")
  = Throw InvalidTokenError /\
  Patient Scenario.jwtDecode Scenario.fetchJson (Scenario.request "not-a-token")
  = Throw InvalidTokenError /\
  Device Scenario.jwtDecode Scenario.fetchJson (Scenario.request "not-a-token")
  = Throw InvalidTokenError /\
  Observation Scenario.jwtDecode Scenario.fetchJson (Scenario.request "not-a-token")
  = Throw InvalidTokenError.
Proof.
  apply (undecodable_credential_throws Scenario.jwtDecode Scenario.fetchJson
           (Scenario.request "not-a-token") "not-a-token" InvalidTokenError);
    [reflexivity | discriminate | reflexivity].
Defined.

(** ** Upstream failures *)

(** X6 — When the server's answer to the Practitioner search is not tagged
    [Bundle], practitioner resolution answers 500, not 403, whatever the
    subject id; likewise role resolution on the PractitionerRole search.
    With a decodable credential each handler then answers 500. *)
Theorem upstream_format_error_is_500
    (jwtDecode : string -> js JwtCustomPayload)
    (fetchJson : string -> option string -> js Bundle)
    (authToken : option string) (body : Bundle) :
  bundle_resourceType body <> Some "Bundle" ->
  (fetchJson (fhirURL ++ "/" ++ "Practitioner") authToken = Ret body ->
   (forall userId,
      getUserPractitioner fetchJson authToken userId
      = Ret (None, Some (statusOnly 500))) /\
   (forall request token payload k,
      authToken = Some token -> token <> "" ->
      req_authorization request = Some token ->
      jwtDecode token = Ret payload ->
      withPractitionerRole jwtDecode fetchJson request k = Ret (statusOnly 500))) /\
  (fetchJson (fhirURL ++ "/" ++ "PractitionerRole") authToken = Ret body ->
   forall practitioner,
     getUserPractitionerRole fetchJson authToken practitioner
     = Ret (None, Some (statusOnly 500))).
Proof.
  intros Htag. split.
  - intros Hfetch.
    assert (Hres : forall userId,
              getUserPractitioner fetchJson authToken userId
              = Ret (None, Some (statusOnly 500))).
    { intros userId. unfold getUserPractitioner.
      erewrite getRessources_not_Bundle; [reflexivity | exact Hfetch | exact Htag]. }
    split; [exact Hres |].
    intros request token payload k -> Hne Hheader Hdecode.
    unfold withPractitionerRole, getAuthTokenAndUserId. rewrite Hheader.
    destruct token as [| c token]; [contradiction Hne; reflexivity |].
    cbn [ToBoolean negb ToString]. rewrite Hdecode.
    cbn [bind Monad_js Monad_either ret]. rewrite Hres. reflexivity.
  - intros Hfetch practitioner. unfold getUserPractitionerRole.
    erewrite getRessources_not_Bundle; [reflexivity | exact Hfetch | exact Htag].
Qed.

Lemma upstream_format_error_is_500_witness :
  (forall userId,
     getUserPractitioner Scenario.fetchOutcome (Some "token-7") userId
     = Ret (None, Some (statusOnly 500))) /\
  Patient Scenario.jwtDecode Scenario.fetchOutcome (Scenario.request "token-7")
  = Ret (statusOnly 500) /\
  (forall practitioner,
     getUserPractitionerRole Scenario.fetchOutcome (Some "token-7") practitioner
     = Ret (None, Some (statusOnly 500))).
Proof.
  assert (Htag : bundle_resourceType Scenario.operationOutcome <> Some "Bundle")
    by discriminate.
  destruct (upstream_format_error_is_500 Scenario.jwtDecode Scenario.fetchOutcome
              (Some "token-7") Scenario.operationOutcome Htag) as [Hp Hr].
  destruct (Hp eq_refl) as [Hresolve Hhandler].
  split; [exact Hresolve |]. split; [| exact (Hr eq_refl)].
  apply (Hhandler (Scenario.request "token-7") "token-7" {| oid := Some "oid-7" |});
    [reflexivity | discriminate | reflexivity | reflexivity].
Defined.

(** ** The fetcher on well-formed bundles *)

Lemma filter_pure {A : Type} (f : A -> js bool) (g : A -> bool) (l : list A) :
  (forall x, In x l -> f x = Ret (g x)) ->
  Array.filter f l = Ret (List.filter g l).
Proof.
  induction l as [| y l IH]; intros Hfg.
  - reflexivity.
  - cbn [Array.filter List.filter].
    rewrite (Hfg y (or_introl eq_refl)).
    rewrite IH by (intros x Hx; apply Hfg; right; exact Hx).
    cbn [bind Monad_js Monad_either ret]. destruct (g y); reflexivity.
Qed.

Section FetcherExact.

Variable fetchJson : string -> option string -> js Bundle.
Context {T : Type} `{LawfulKind T}.
Variable authToken : option string.

Let tagged (r : FhirResource) : bool :=
  String.eqb (resourceType r) (endpoint (T := T)).

Lemma cast_tagged (entries : list BundleEntry) (resources : list FhirResource) :
  map entry_resource entries = map Some resources ->
  map upcast
    (flat_map (fun entry =>
       match optChain (entry_resource entry) downcast with
       | Some t => [t]
       | None => []
       end)
       (List.filter (fun entry =>
          match entry_resource entry with
          | Some r => tagged r
          | None => false
          end) entries))
  = List.filter tagged resources.
Proof.
  revert resources. induction entries as [| entry entries IH];
    intros [| r resources] E; try discriminate E.
  - reflexivity.
  - cbn [map] in E. injection E as Er Erest.
    cbn [List.filter]. rewrite Er.
    destruct (tagged r) eqn:Htag.
    + cbn [flat_map]. rewrite Er. cbn [optChain].
      destruct (tagged_downcast r Htag) as [t Ht]. rewrite Ht.
      cbn [app map]. rewrite (IH resources Erest).
      f_equal. symmetry. apply downcast_Some. exact Ht.
    + apply IH. exact Erest.
Qed.

(** X7 — On a bundle whose entries all carry a resource, the fetcher returns
    the resources tagged with the requested kind, each as often as it
    occurs and in the order of the bundle, and drops every other entry. *)
Theorem getRessources_exact (body : Bundle) (entries : list BundleEntry)
    (resources : list FhirResource) :
  fetchJson (fhirURL ++ "/" ++ endpoint (T := T)) authToken = Ret body ->
  bundle_resourceType body = Some "Bundle" ->
  bundle_entry body = Some entries ->
  map entry_resource entries = map Some resources ->
  exists ressources,
    getRessources fetchJson T authToken = Ret (Some ressources, None) /\
    map upcast ressources
    = List.filter (fun r => String.eqb (resourceType r) (endpoint (T := T))) resources.
Proof.
  intros Hfetch Htag Hentries Hres.
  unfold getRessources. rewrite Hfetch.
  cbn [bind Monad_js Monad_either].
  apply strictEq_true in Htag. rewrite Htag, Hentries.
  cbn [negb receiver bind ret Monad_js Monad_either].
  rewrite (filter_pure _ (fun entry =>
             match entry_resource entry with
             | Some r => tagged r
             | None => false
             end)).
  - eexists; split; [reflexivity |]. exact (cast_tagged entries resources Hres).
  - intros entry Hin.
    assert (Hsome : exists r, entry_resource entry = Some r).
    { apply (in_map entry_resource) in Hin. rewrite Hres in Hin.
      apply in_map_iff in Hin. destruct Hin as (r & Hr & _). eauto. }
    destruct Hsome as [r ->]. reflexivity.
Qed.


Lemma filter_tagged_upcast (l : list T) :
  List.filter (fun r => String.eqb (resourceType r) (endpoint (T := T))) (map upcast l)
  = map upcast l.
Proof.
  induction l as [| t l IH]; [reflexivity |].
  cbn [map List.filter]. rewrite upcast_tag, String.eqb_refl, IH. reflexivity.
Qed.

Lemma map_upcast_inj (l l' : list T) : map upcast l' = map upcast l -> l' = l.
Proof.
  revert l'. induction l as [| t rest IH]; intros [| t' l'] E;
    try discriminate E; [reflexivity |].
  cbn [map] in E. injection E as Ht Hrest.
  f_equal; [| exact (IH l' Hrest)].
  pose proof (downcast_upcast t) as E1. pose proof (downcast_upcast t') as E2.
  rewrite Ht in E2. rewrite E1 in E2. injection E2 as ->. reflexivity.
Qed.

(** X8 — Round trip: what [getSearchBundle] wraps, the fetcher unwraps.  A
    server that answers with the envelope of a list of resources of the
    requested kind yields that very list. *)
Theorem getRessources_getSearchBundle (ressources : list T) :
  fetchJson (fhirURL ++ "/" ++ endpoint (T := T)) authToken
  = Ret (getSearchBundle (map upcast ressources)) ->
  getRessources fetchJson T authToken = Ret (Some ressources, None).
Proof.
  intros Hfetch. unfold getRessources. rewrite Hfetch.
  cbn [bind Monad_js Monad_either getSearchBundle bundle_resourceType bundle_entry
       strictEq negb receiver ret].
  rewrite String.eqb_refl. cbn [negb].
  rewrite (filter_pure _ (fun entry =>
             match entry_resource entry with
             | Some r => tagged r
             | None => false
             end)).
  - cbn [bind Monad_js Monad_either]. repeat f_equal.
    apply map_upcast_inj.
    rewrite (cast_tagged _ (map upcast ressources)).
    + apply filter_tagged_upcast.
    + rewrite !map_map. reflexivity.
  - intros entry Hin. apply in_map_iff in Hin. destruct Hin as (r & <- & _).
    reflexivity.
Qed.

End FetcherExact.

Lemma getRessources_exact_witness :
  exists ressources,
    getRessources Scenario.fetchMixed fhirPatient (Some "token-7")
    = Ret (Some ressources, None) /\
    map RPatient ressources
    = [RPatient Scenario.P1; RPatient Scenario.P2; RPatient Scenario.P1].
Proof.
  exact (getRessources_exact Scenario.fetchMixed (T := fhirPatient) (Some "token-7")
           (getSearchBundle Scenario.mixedResources) _ Scenario.mixedResources
           eq_refl eq_refl eq_refl eq_refl).
Defined.

Lemma getRessources_getSearchBundle_witness :
  getRessources Scenario.fetchJson fhirPatient (Some "token-7")
  = Ret (Some [Scenario.P1; Scenario.P2; Scenario.P3], None).
Proof.
  apply (getRessources_getSearchBundle Scenario.fetchJson (T := fhirPatient)
           (Some "token-7") [Scenario.P1; Scenario.P2; Scenario.P3]).
  reflexivity.
Defined.

(** ** The consent evaluator *)

Lemma some_app_true {A : Type} (f : A -> js bool) (l more : list A) :
  Array.some f l = Ret true -> Array.some f (l ++ more) = Ret true.
Proof.
  induction l as [| x l IH]; cbn [Array.some app]; [discriminate |].
  destruct (f x) as [e | [|]]; cbn [bind Monad_js Monad_either];
    [discriminate | reflexivity | exact IH].
Qed.

(** X9 — A permission is never revoked by further consent records: once some
    consent permits, appending any records (readable or not, denying or not)
    leaves the answer true, and so does any larger collection the evaluator
    gets through. *)
Theorem permission_never_revoked (consents : list Consent)
    (practitionerRole : PractitionerRole) (device : fhirDevice) :
  isPractitionerRolePermitted consents practitionerRole device = Ret true ->
  (forall more,
     isPractitionerRolePermitted (consents ++ more) practitionerRole device
     = Ret true) /\
  (forall consents' b,
     incl consents consents' ->
     isPractitionerRolePermitted consents' practitionerRole device = Ret b ->
     b = true).
Proof.
  intros Hrun. split.
  - intros more. apply some_app_true. exact Hrun.
  - intros consents' b Hincl Hrun'.
    apply (isPractitionerRolePermitted_spec _ _ _ _ Hrun').
    destruct (proj1 (isPractitionerRolePermitted_spec _ _ _ _ Hrun) eq_refl)
      as (consent & Hin & Hq).
    exists consent; split; [apply Hincl; exact Hin | exact Hq].
Qed.

Lemma permission_never_revoked_witness :
  (forall more,
     isPractitionerRolePermitted ([Scenario.consentP2] ++ more) Scenario.R1 Scenario.D1
     = Ret true) /\
  (forall consents' b,
     incl [Scenario.consentP2] consents' ->
     isPractitionerRolePermitted consents' Scenario.R1 Scenario.D1 = Ret b ->
     b = true).
Proof.
  apply (permission_never_revoked [Scenario.consentP2] Scenario.R1 Scenario.D1).
  reflexivity.
Defined.

Lemma consentPermits_not_permit role device consent :
  granteeReadable consent -> permitTyped consent = false ->
  consentPermits role device consent = Ret false.
Proof.
  intros (provision & actors & Hp & Ha & Hcodings) Htype.
  unfold permitTyped in Htype. rewrite Hp in Htype. cbn [optChain] in Htype.
  assert (HA : exists a, Array.some (fun actor =>
    codings <- receiver (cc_coding (actor_role actor)) ;;
    Array.some (fun coding =>
      ret (strictEq (coding_code coding) (Some "GRANTEE"))) codings) actors
    = Ret a).
  { apply some_total. intros actor Hin. specialize (Hcodings actor Hin).
    destruct (cc_coding (actor_role actor)) as [codings |]; [| contradiction].
    apply (some_total (fun coding =>
      ret (strictEq (coding_code coding) (Some "GRANTEE")))).
    intros coding _. eexists; reflexivity. }
  destruct HA as [a HA].
  unfold consentPermits. rewrite Hp.
  unfold andThen, field in *. cbn [receiver bind ret Monad_js Monad_either] in *.
  rewrite Ha. cbn [receiver bind ret Monad_js Monad_either].
  rewrite HA. destruct a; [| reflexivity]. rewrite Htype. reflexivity.
Qed.

(** X10 — Only consents of provision type [permit] count: over consents
    whose provision, actors and role codings are present, the evaluator
    answers (or throws) exactly as it does on the [permit] consents alone. *)
Theorem only_permit_consents_count (consents : list Consent)
    (practitionerRole : PractitionerRole) (device : fhirDevice) :
  (forall consent, In consent consents -> granteeReadable consent) ->
  isPractitionerRolePermitted consents practitionerRole device
  = isPractitionerRolePermitted (List.filter permitTyped consents)
      practitionerRole device.
Proof.
  unfold isPractitionerRolePermitted.
  induction consents as [| consent consents IH]; intros Hread; [reflexivity |].
  assert (IH' := IH (fun c Hc => Hread c (or_intror Hc))).
  cbn [List.filter]. destruct (permitTyped consent) eqn:Htype.
  - cbn [Array.some]. rewrite IH'. reflexivity.
  - cbn [Array.some].
    rewrite (consentPermits_not_permit practitionerRole device consent
               (Hread consent (or_introl eq_refl)) Htype).
    exact IH'.
Qed.

Lemma only_permit_consents_count_witness :
  isPractitionerRolePermitted [Scenario.denialP2; Scenario.consentP2]
    Scenario.R1 Scenario.D1
  = isPractitionerRolePermitted
      (List.filter permitTyped [Scenario.denialP2; Scenario.consentP2])
      Scenario.R1 Scenario.D1.
Proof.
  apply only_permit_consents_count.
  intros consent [<- | [<- | []]];
    (eexists; eexists; split; [reflexivity |]; split; [reflexivity |]);
    intros actor [<- | []]; discriminate.
Defined.

(** ** How the stages depend on each other *)

Lemma suffixMatches_incl {A : Type} (ref : option Reference)
    (idOf : A -> option string) (l l' : list A) :
  incl l l' ->
  (exists x, In x l /\ suffixMatches ref (idOf x)) ->
  exists x, In x l' /\ suffixMatches ref (idOf x).
Proof. intros Hincl (x & Hin & Hm). exists x; split; [apply Hincl; exact Hin | exact Hm]. Qed.

(** X11 — The device stage is monotone in what it is given: with more
    visible patients and more consents, every device shown before is still
    shown. *)
Theorem filteredDevices_monotone
    (fps fps' : list fhirPatient) (consents consents' : list Consent)
    (practitionerRole : PractitionerRole) (devices shown shown' : list fhirDevice) :
  incl fps fps' -> incl consents consents' ->
  filteredDevices fps consents practitionerRole devices = Ret shown ->
  filteredDevices fps' consents' practitionerRole devices = Ret shown' ->
  incl shown shown'.
Proof.
  intros Hp Hc Hrun Hrun' device Hin.
  apply (filteredDevices_In _ _ _ _ _ Hrun') .
  apply (filteredDevices_In _ _ _ _ _ Hrun) in Hin. destruct Hin as [Hin He].
  split; [exact Hin |].
  destruct He as [Hm | (Ho & consent & Hcin & Hq)].
  - left. exact (suffixMatches_incl _ pat_id fps fps' Hp Hm).
  - right. split; [exact Ho |]. exists consent; split; [apply Hc; exact Hcin | exact Hq].
Qed.

Lemma filteredDevices_monotone_witness :
  incl [Scenario.D2] [Scenario.D1; Scenario.D2].
Proof.
  apply (filteredDevices_monotone [Scenario.P1] [Scenario.P1] [] [Scenario.consentP2]
           Scenario.R1 [Scenario.D1; Scenario.D2; Scenario.D3]);
    [apply incl_refl | intros c [] | reflexivity | reflexivity].
Defined.

(** X12 — The observation stage is monotone in the two earlier stages: with
    more visible patients and more visible devices, every observation shown
    before is still shown. *)
Theorem filteredObservations_monotone
    (fps fps' : list fhirPatient) (fds fds' : list fhirDevice)
    (observations shown shown' : list fhirObservation) :
  incl fps fps' -> incl fds fds' ->
  filteredObservations fps fds observations = Ret shown ->
  filteredObservations fps' fds' observations = Ret shown' ->
  incl shown shown'.
Proof.
  intros Hp Hd Hrun Hrun' observation Hin.
  apply (filteredObservations_In _ _ _ _ Hrun').
  apply (filteredObservations_In _ _ _ _ Hrun) in Hin. destruct Hin as [Hin He].
  split; [exact Hin |].
  destruct He as [Hm | Hm].
  - left. exact (suffixMatches_incl _ pat_id fps fps' Hp Hm).
  - right. exact (suffixMatches_incl _ dev_id fds fds' Hd Hm).
Qed.

Lemma filteredObservations_monotone_witness :
  incl [Scenario.O1] [Scenario.O1; Scenario.O2].
Proof.
  apply (filteredObservations_monotone [Scenario.P1] [Scenario.P1]
           [] [Scenario.D1; Scenario.D2]
           [Scenario.O1; Scenario.O2; Scenario.O3]);
    [apply incl_refl | intros d [] | reflexivity | reflexivity].
Defined.

(** X13 — A device whose patient-reference ends with the id of a visible
    patient is shown without its owner, the role's organization or any
    consent being read: the test returns true even where those are missing,
    and the device is in whatever the device stage returns. *)
Theorem device_of_visible_patient
    (fps : list fhirPatient) (consents : list Consent)
    (practitionerRole : PractitionerRole) (device : fhirDevice)
    (patient : fhirPatient) :
  In patient fps ->
  suffixMatches (dev_patient device) (pat_id patient) ->
  deviceVisible fps consents practitionerRole device = Ret true /\
  forall devices shown,
    In device devices ->
    filteredDevices fps consents practitionerRole devices = Ret shown ->
    In device shown.
Proof.
  intros Hin (s & Hs & Hends).
  assert (Hv : deviceVisible fps consents practitionerRole device = Ret true).
  { unfold deviceVisible.
    assert (Hreadable : referenceReadable (dev_patient device)).
    { destruct (dev_patient device) as [r |]; [| discriminate Hs].
      exists r, s; split; [reflexivity | exact Hs]. }
    destruct (suffixSome_total _ pat_id fps Hreadable) as [b Hb]. cbv zeta in Hb.
    assert (b = true) as ->.
    { apply (suffixSome_spec _ _ _ _ Hb). exists patient; split; [exact Hin |].
      exists s; split; assumption. }
    rewrite Hb. reflexivity. }
  split; [exact Hv |].
  intros devices shown Hd Hrun. unfold filteredDevices in Hrun.
  apply (filter_In _ _ _ Hrun). split; assumption.
Qed.

Lemma device_of_visible_patient_witness :
  deviceVisible [Scenario.P1] [] Scenario.roleWithoutOrganization
    Scenario.deviceWithoutOwner = Ret true /\
  forall devices shown,
    In Scenario.deviceWithoutOwner devices ->
    filteredDevices [Scenario.P1] [] Scenario.roleWithoutOrganization devices
    = Ret shown ->
    In Scenario.deviceWithoutOwner shown.
Proof.
  apply (device_of_visible_patient [Scenario.P1] [] Scenario.roleWithoutOrganization
           Scenario.deviceWithoutOwner Scenario.P1).
  - left; reflexivity.
  - exists "Patient/P1"; split; reflexivity.
Defined.

(** X14 — An observation whose subject-reference ends with the id of a
    visible patient is shown without its device reference being read: the
    test returns true also for an observation without device, and the
    observation is in whatever the observation stage returns. *)
Theorem observation_of_visible_patient
    (fps : list fhirPatient) (fds : list fhirDevice)
    (observation : fhirObservation) (patient : fhirPatient) :
  In patient fps ->
  suffixMatches (obs_subject observation) (pat_id patient) ->
  observationVisible fps fds observation = Ret true /\
  forall observations shown,
    In observation observations ->
    filteredObservations fps fds observations = Ret shown ->
    In observation shown.
Proof.
  intros Hin (s & Hs & Hends).
  assert (Hv : observationVisible fps fds observation = Ret true).
  { unfold observationVisible.
    assert (Hreadable : referenceReadable (obs_subject observation)).
    { destruct (obs_subject observation) as [r |]; [| discriminate Hs].
      exists r, s; split; [reflexivity | exact Hs]. }
    destruct (suffixSome_total _ pat_id fps Hreadable) as [b Hb]. cbv zeta in Hb.
    assert (b = true) as ->.
    { apply (suffixSome_spec _ _ _ _ Hb). exists patient; split; [exact Hin |].
      exists s; split; assumption. }
    rewrite Hb. reflexivity. }
  split; [exact Hv |].
  intros observations shown Ho Hrun. unfold filteredObservations in Hrun.
  apply (filter_In _ _ _ Hrun). split; assumption.
Qed.

Lemma observation_of_visible_patient_witness :
  observationVisible [Scenario.P1] [Scenario.D1]
    {| obs_id := Some "O5"; obs_subject := Scenario.ref "Patient/P1";
       obs_device := None |} = Ret true /\
  forall observations shown,
    In {| obs_id := Some "O5"; obs_subject := Scenario.ref "Patient/P1";
          obs_device := None |} observations ->
    filteredObservations [Scenario.P1] [Scenario.D1] observations = Ret shown ->
    In {| obs_id := Some "O5"; obs_subject := Scenario.ref "Patient/P1";
          obs_device := None |} shown.
Proof.
  apply (observation_of_visible_patient [Scenario.P1] [Scenario.D1] _ Scenario.P1).
  - left; reflexivity.
  - exists "Patient/P1"; split; reflexivity.
Defined.

Lemma filter_throws {A : Type} (f : A -> js bool) (l : list A) (x : A) (e : exn) :
  In x l -> f x = Throw e -> forall out, Array.filter f l <> Ret out.
Proof.
  intros Hin Hx out Hrun.
  destruct (filter_ran _ _ _ Hrun x Hin) as [b Hb]. rewrite Hx in Hb. discriminate Hb.
Qed.

(** X15 — An observation without device reference whose subject matches no
    visible patient makes the observation stage throw as soon as one device
    is visible: the stage returns nothing for a collection that holds it.
    With no visible patient and no visible device nothing is read, and the
    stage returns the empty list for every collection. *)
Theorem observation_without_device_aborts
    (fps : list fhirPatient) (fds : list fhirDevice) (observation : fhirObservation) :
  (referenceReadable (obs_subject observation) ->
   (forall patient, In patient fps ->
                    ~ suffixMatches (obs_subject observation) (pat_id patient)) ->
   fds <> [] ->
   optChain (obs_device observation) ref_reference = None ->
   observationVisible fps fds observation = Throw TypeError /\
   forall observations shown,
     In observation observations ->
     filteredObservations fps fds observations <> Ret shown) /\
  (forall observations, filteredObservations [] [] observations = Ret []).
Proof.
  split.
  - intros Hsubject Hnone Hfds Hdevice.
    assert (Hv : observationVisible fps fds observation = Throw TypeError).
    { unfold observationVisible.
      destruct (suffixSome_total _ pat_id fps Hsubject) as [b Hb]. cbv zeta in Hb.
      assert (b = false) as ->.
      { destruct b; [| reflexivity]. exfalso.
        destruct (proj1 (suffixSome_spec _ _ _ _ Hb) eq_refl) as (p & Hp & Hm).
        exact (Hnone p Hp Hm). }
      rewrite Hb. destruct fds as [| device fds']; [contradiction Hfds; reflexivity |].
      cbn [orElse bind Monad_js Monad_either Array.some].
      destruct (obs_device observation) as [r |]; cbn [optChain] in Hdevice.
      - js_red. rewrite Hdevice. reflexivity.
      - reflexivity. }
    split; [exact Hv |].
    intros observations shown Hin. unfold filteredObservations.
    exact (filter_throws _ _ _ _ Hin Hv shown).
  - intros observations. unfold filteredObservations.
    induction observations as [| o observations IH]; [reflexivity |].
    cbn [Array.filter]. rewrite IH. reflexivity.
Qed.

Lemma observation_without_device_aborts_witness :
  observationVisible [Scenario.P1] [Scenario.D1]
    {| obs_id := Some "O6"; obs_subject := Scenario.ref "Patient/P2";
       obs_device := None |} = Throw TypeError /\
  forall observations shown,
    In {| obs_id := Some "O6"; obs_subject := Scenario.ref "Patient/P2";
          obs_device := None |} observations ->
    filteredObservations [Scenario.P1] [Scenario.D1] observations <> Ret shown.
Proof.
  apply (proj1 (observation_without_device_aborts [Scenario.P1] [Scenario.D1]
                  {| obs_id := Some "O6"; obs_subject := Scenario.ref "Patient/P2";
                     obs_device := None |})).
  - eexists; eexists; split; reflexivity.
  - intros patient [<- | []] (s & Hs & Hends).
    injection Hs as <-. discriminate Hends.
  - discriminate.
  - reflexivity.
Defined.

(** X21 — A device without patient reference makes the device stage throw
    as soon as the caller sees one patient: the stage returns nothing for a
    collection that holds such a device, whatever its owner and the
    consents. *)
Theorem device_without_patient_aborts
    (fps : list fhirPatient) (consents : list Consent)
    (practitionerRole : PractitionerRole) (device : fhirDevice) :
  optChain (dev_patient device) ref_reference = None ->
  fps <> [] ->
  deviceVisible fps consents practitionerRole device = Throw TypeError /\
  forall devices shown,
    In device devices ->
    filteredDevices fps consents practitionerRole devices <> Ret shown.
Proof.
  intros Hpatient Hfps.
  assert (Hv : deviceVisible fps consents practitionerRole device = Throw TypeError).
  { unfold deviceVisible.
    destruct fps as [| patient fps']; [contradiction Hfps; reflexivity |].
    cbn [Array.some].
    destruct (dev_patient device) as [r |]; cbn [optChain] in Hpatient.
    - js_red. rewrite Hpatient. reflexivity.
    - reflexivity. }
  split; [exact Hv |].
  intros devices shown Hin. unfold filteredDevices.
  exact (filter_throws _ _ _ _ Hin Hv shown).
Qed.

Lemma device_without_patient_aborts_witness :
  deviceVisible [Scenario.P1] [Scenario.consentP2] Scenario.R1
    {| dev_id := Some "D5"; dev_patient := None; dev_owner := Scenario.ref "Org/1" |}
  = Throw TypeError /\
  forall devices shown,
    In {| dev_id := Some "D5"; dev_patient := None;
          dev_owner := Scenario.ref "Org/1" |} devices ->
    filteredDevices [Scenario.P1] [Scenario.consentP2] Scenario.R1 devices
    <> Ret shown.
Proof.
  apply (device_without_patient_aborts [Scenario.P1] [Scenario.consentP2] Scenario.R1
           {| dev_id := Some "D5"; dev_patient := None;
              dev_owner := Scenario.ref "Org/1" |});
    [reflexivity | discriminate].
Defined.

(** ** Role resolution matches whole ids *)

Lemma string_append_assoc (a b c : string) : (a ++ b) ++ c = a ++ b ++ c.
Proof. induction a as [| x a IH]; cbn [append]; [reflexivity | rewrite IH; reflexivity]. Qed.

Lemma slashFree_no_slash (s : string) :
  slashFree s = true -> forall p q, s <> p ++ String "/" q.
Proof.
  induction s as [| c s IH]; intros Hs p q E.
  - destruct p; discriminate E.
  - cbn [slashFree] in Hs. apply andb_true_iff in Hs. destruct Hs as [Hc Hs].
    destruct p as [| c' p]; cbn [append] in E; injection E as -> E.
    + discriminate Hc.
    + exact (IH Hs p q E).
Qed.

(** Two strings that agree as a whole agree on what follows their last
    slash. *)
Lemma last_segment (a b x y : string) :
  slashFree x = true -> slashFree y = true ->
  a ++ String "/" x = b ++ String "/" y -> x = y.
Proof.
  intros Hx Hy. revert b. induction a as [| c a IH]; intros [| c' b] E;
    cbn [append] in E.
  - injection E as ->. reflexivity.
  - injection E as _ E. exfalso. exact (slashFree_no_slash x Hx b y E).
  - injection E as _ E. exfalso. symmetry in E. exact (slashFree_no_slash y Hy a x E).
  - injection E as _ E. exact (IH b E).
Qed.

Lemma endsWith_kind_id (base x y : string) :
  slashFree x = true -> slashFree y = true ->
  (endsWith (base ++ "Practitioner/" ++ x) ("Practitioner/" ++ y) = true <-> x = y).
Proof.
  intros Hx Hy. rewrite endsWith_iff. split.
  - intros [p E].
    apply (last_segment (base ++ "Practitioner") (p ++ "Practitioner") x y Hx Hy).
    rewrite !string_append_assoc. exact E.
  - intros ->. exists base. reflexivity.
Qed.

Lemma TheOnly_ext {A : Type} (P Q : A -> Prop) (l : list A) (x : A) :
  (forall y, In y l -> (P y <-> Q y)) -> TheOnly P l x -> TheOnly Q l x.
Proof.
  intros Hpq (before & after & -> & Px & Hnone).
  exists before, after. split; [reflexivity |]. split.
  - apply Hpq; [apply in_or_app; right; left; reflexivity | exact Px].
  - intros y Hy Qy. apply (Hnone y Hy). apply Hpq; [| exact Qy].
    apply in_app_or in Hy. apply in_or_app.
    destruct Hy as [Hy | Hy]; [left; exact Hy | right; right; exact Hy].
Qed.

(** X16 — Role resolution compares whole ids.  When the practitioner's id and
    the ids in the fetched roles' practitioner-references
    ([...Practitioner/<id>], relative or absolute) hold no slash, resolution
    returns, and it succeeds with a role if and only if that role is the only
    one whose reference names exactly the practitioner's id: an id that is
    merely the tail of another does not match. *)
Theorem role_resolution_exact
    (fetchJson : string -> option string -> js Bundle) (authToken : option string)
    (practitioner : Practitioner) (id : string)
    (practitionerRoles : list PractitionerRole) :
  prac_id practitioner = Some id ->
  slashFree id = true ->
  getRessources fetchJson PractitionerRole authToken
  = Ret (Some practitionerRoles, None) ->
  (forall practitionerRole, In practitionerRole practitionerRoles ->
     exists base x,
       optChain (role_practitioner practitionerRole) ref_reference
       = Some (base ++ "Practitioner/" ++ x) /\
       slashFree x = true) ->
  exists res,
    getUserPractitionerRole fetchJson authToken (Some practitioner) = Ret res /\
    forall practitionerRole,
      res = (Some practitionerRole, None) <->
      TheOnly (fun r => exists base,
                 optChain (role_practitioner r) ref_reference
                 = Some (base ++ "Practitioner/" ++ id))
        practitionerRoles practitionerRole.
Proof.
  intros Hid Hfree Hfetch Hrefs.
  destruct (getUserPractitionerRole_resolution fetchJson authToken practitioner
              practitionerRoles Hfetch) as [Htotal Hpartial].
  destruct Htotal as [res Hres].
  { intros role Hin. destruct (Hrefs role Hin) as (base & x & Hx & _).
    destruct (role_practitioner role) as [r |]; [| discriminate Hx].
    exists r, (base ++ "Practitioner/" ++ x). split; [reflexivity | exact Hx]. }
  exists res; split; [exact Hres |].
  destruct (Hpartial res Hres) as [Hone _].
  assert (Hsame : forall role, In role practitionerRoles ->
            (roleOf practitioner role <->
             exists base, optChain (role_practitioner role) ref_reference
                          = Some (base ++ "Practitioner/" ++ id))).
  { intros role Hin. destruct (Hrefs role Hin) as (base & x & Hx & Hxfree).
    unfold roleOf, suffixMatches. rewrite Hid. cbn [ToString]. split.
    - intros (s & Hs & Hends). rewrite Hx in Hs. injection Hs as <-.
      apply (endsWith_kind_id base x id Hxfree Hfree) in Hends. subst x.
      exists base. exact Hx.
    - intros (base' & Hb). eexists; split; [exact Hb |].
      apply (endsWith_kind_id base' id id Hfree Hfree). reflexivity. }
  intros role. rewrite Hone. split; apply TheOnly_ext; intros y Hy.
  - exact (Hsame y Hy).
  - symmetry. exact (Hsame y Hy).
Qed.

Lemma role_resolution_exact_witness :
  exists res,
    getUserPractitionerRole Scenario.fetchJson (Some "token-7")
      (Some Scenario.practitioner7) = Ret res /\
    forall practitionerRole,
      res = (Some practitionerRole, None) <->
      TheOnly (fun r => exists base,
                 optChain (role_practitioner r) ref_reference
                 = Some (base ++ "Practitioner/" ++ "7"))
        [Scenario.R1; Scenario.R2; Scenario.R3] practitionerRole.
Proof.
  apply (role_resolution_exact Scenario.fetchJson (Some "token-7")
           Scenario.practitioner7 "7" [Scenario.R1; Scenario.R2; Scenario.R3]);
    [reflexivity | reflexivity | reflexivity |].
  intros role [<- | [<- | [<- | []]]].
  - exists "", "7"; split; reflexivity.
  - exists "", "8"; split; reflexivity.
  - exists "", "9"; split; reflexivity.
Defined.

(** ** What a handler asks the server *)

Section Reads.

Variable jwtDecode : string -> js JwtCustomPayload.
Variables fetchJson fetchJson' : string -> option string -> js Bundle.

Lemma getRessources_ext {T : Type} `{FhirKind T} (authToken : option string) :
  fetchJson (fhirURL ++ "/" ++ endpoint (T := T)) authToken
  = fetchJson' (fhirURL ++ "/" ++ endpoint (T := T)) authToken ->
  getRessources fetchJson T authToken = getRessources fetchJson' T authToken.
Proof. intros E. unfold getRessources. rewrite E. reflexivity. Qed.

Lemma fetchOrReturn_ext {T : Type} `{FhirKind T} (authToken : option string)
    (k k' : list T -> js HttpResponseInit) :
  fetchJson (fhirURL ++ "/" ++ endpoint (T := T)) authToken
  = fetchJson' (fhirURL ++ "/" ++ endpoint (T := T)) authToken ->
  (forall l, k l = k' l) ->
  fetchOrReturn fetchJson authToken k = fetchOrReturn fetchJson' authToken k'.
Proof.
  intros E Hk. unfold fetchOrReturn. rewrite (getRessources_ext authToken E).
  destruct (getRessources fetchJson' T authToken) as [e | [l err]]; [reflexivity |].
  cbn [bind Monad_js Monad_either]. destruct err; [reflexivity |].
  destruct l as [l |]; [| reflexivity].
  cbn [receiver bind ret Monad_js Monad_either]. apply Hk.
Qed.

Lemma withPractitionerRole_ext (request : HttpRequest)
    (k k' : option string -> PractitionerRole -> js HttpResponseInit) :
  fetchJson (fhirURL ++ "/" ++ "Practitioner") (req_authorization request)
  = fetchJson' (fhirURL ++ "/" ++ "Practitioner") (req_authorization request) ->
  fetchJson (fhirURL ++ "/" ++ "PractitionerRole") (req_authorization request)
  = fetchJson' (fhirURL ++ "/" ++ "PractitionerRole") (req_authorization request) ->
  (forall practitionerRole,
     k (req_authorization request) practitionerRole
     = k' (req_authorization request) practitionerRole) ->
  withPractitionerRole jwtDecode fetchJson request k
  = withPractitionerRole jwtDecode fetchJson' request k'.
Proof.
  intros Ep Er Hk.
  assert (Hp : forall userId,
            getUserPractitioner fetchJson (req_authorization request) userId
            = getUserPractitioner fetchJson' (req_authorization request) userId).
  { intros userId. unfold getUserPractitioner.
    rewrite (@getRessources_ext Practitioner Kind_Practitioner _ Ep). reflexivity. }
  assert (Hr : forall practitioner,
            getUserPractitionerRole fetchJson (req_authorization request) practitioner
            = getUserPractitionerRole fetchJson' (req_authorization request)
                practitioner).
  { intros practitioner. unfold getUserPractitionerRole.
    rewrite (@getRessources_ext PractitionerRole Kind_PractitionerRole _ Er).
    reflexivity. }
  unfold withPractitionerRole, getAuthTokenAndUserId.
  destruct (negb (ToBoolean (req_authorization request))); [reflexivity |].
  destruct (jwtDecode (ToString (req_authorization request))) as [e | payload];
    [reflexivity |].
  cbn [bind Monad_js Monad_either ret]. rewrite Hp.
  destruct (getUserPractitioner fetchJson' (req_authorization request) (oid payload))
    as [e | [practitioner err]]; [reflexivity |].
  destruct err; [reflexivity |]. rewrite Hr.
  destruct (getUserPractitionerRole fetchJson' (req_authorization request) practitioner)
    as [e | [role err]]; [reflexivity |].
  destruct err; [reflexivity |].
  destruct role as [role |]; [| reflexivity].
  cbn [receiver bind ret Monad_js Monad_either]. apply Hk.
Qed.

(** X17 — A handler asks the server only with the request's own
    Authorization value, and only for the collections it filters: the
    Patient handler's outcome is the same for any two servers that answer
    the Practitioner, PractitionerRole and Patient searches alike; the
    Device handler also reads Consent and Device, the Observation handler
    also Observation. *)
Theorem handlers_read_only_their_collections (request : HttpRequest) :
  sameAnswer fetchJson fetchJson' (req_authorization request) "Practitioner" ->
  sameAnswer fetchJson fetchJson' (req_authorization request) "PractitionerRole" ->
  sameAnswer fetchJson fetchJson' (req_authorization request) "Patient" ->
  Patient jwtDecode fetchJson request = Patient jwtDecode fetchJson' request /\
  (sameAnswer fetchJson fetchJson' (req_authorization request) "Consent" ->
   sameAnswer fetchJson fetchJson' (req_authorization request) "Device" ->
   Device jwtDecode fetchJson request = Device jwtDecode fetchJson' request /\
   (sameAnswer fetchJson fetchJson' (req_authorization request) "Observation" ->
    Observation jwtDecode fetchJson request
    = Observation jwtDecode fetchJson' request)).
Proof.
  unfold sameAnswer. intros Hpr Hro Hpa.
  split; [| intros Hco Hde; split; [| intros Hob]].
  - unfold Patient. apply withPractitionerRole_ext; [exact Hpr | exact Hro |].
    intros role. apply (@fetchOrReturn_ext fhirPatient Kind_Patient); [exact Hpa |].
    reflexivity.
  - unfold Device. apply withPractitionerRole_ext; [exact Hpr | exact Hro |].
    intros role. apply (@fetchOrReturn_ext fhirPatient Kind_Patient); [exact Hpa |].
    intros patients. apply (@fetchOrReturn_ext Consent Kind_Consent); [exact Hco |].
    intros consents. apply (@fetchOrReturn_ext fhirDevice Kind_Device); [exact Hde |].
    reflexivity.
  - unfold Observation. apply withPractitionerRole_ext; [exact Hpr | exact Hro |].
    intros role. apply (@fetchOrReturn_ext fhirPatient Kind_Patient); [exact Hpa |].
    intros patients. apply (@fetchOrReturn_ext Consent Kind_Consent); [exact Hco |].
    intros consents. apply (@fetchOrReturn_ext fhirDevice Kind_Device); [exact Hde |].
    intros devices.
    apply (@fetchOrReturn_ext fhirObservation Kind_Observation); [exact Hob |].
    reflexivity.
Qed.

End Reads.

Lemma handlers_read_only_their_collections_witness :
  Patient Scenario.jwtDecode Scenario.fetchJson (Scenario.request "token-7")
  = Patient Scenario.jwtDecode Scenario.fetchWithoutDevices (Scenario.request "token-7").
Proof.
  apply (handlers_read_only_their_collections Scenario.jwtDecode
           Scenario.fetchJson Scenario.fetchWithoutDevices (Scenario.request "token-7"));
    reflexivity.
Defined.

(** ** The stages as list filters *)

Lemma filter_idempotent {A : Type} (f : A -> js bool) (l out : list A) :
  Array.filter f l = Ret out -> Array.filter f out = Ret out.
Proof.
  revert out. induction l as [| y l IH]; intros out Hrun.
  - apply (proj1 (ret_Ret _ _)) in Hrun. subst out. reflexivity.
  - cbn [Array.filter] in Hrun.
    apply (proj1 (bind_Ret _ _ _)) in Hrun. destruct Hrun as (b & Hb & Hrun).
    apply (proj1 (bind_Ret _ _ _)) in Hrun. destruct Hrun as (r & Hr & Hrun).
    apply (proj1 (ret_Ret _ _)) in Hrun. subst out.
    specialize (IH r Hr). destruct b; [| exact IH].
    cbn [Array.filter]. rewrite Hb, IH. reflexivity.
Qed.

(** X18 — Filtering again changes nothing: each stage, run on its own
    output with the same role, visible patients, devices and consents,
    returns that output. *)
Theorem filter_stages_idempotent :
  (forall patients practitionerRole shown,
     filteredPatients patients practitionerRole = Ret shown ->
     filteredPatients shown practitionerRole = Ret shown) /\
  (forall fps consents practitionerRole devices shown,
     filteredDevices fps consents practitionerRole devices = Ret shown ->
     filteredDevices fps consents practitionerRole shown = Ret shown) /\
  (forall fps fds observations shown,
     filteredObservations fps fds observations = Ret shown ->
     filteredObservations fps fds shown = Ret shown).
Proof.
  unfold filteredPatients, filteredDevices, filteredObservations.
  repeat split; intros; eapply filter_idempotent; eassumption.
Qed.

Lemma filter_stages_idempotent_witness :
  filteredPatients [Scenario.P1] Scenario.R1 = Ret [Scenario.P1] /\
  filteredDevices [Scenario.P1] [Scenario.consentP2] Scenario.R1
    [Scenario.D1; Scenario.D2] = Ret [Scenario.D1; Scenario.D2] /\
  filteredObservations [Scenario.P1] [Scenario.D1; Scenario.D2]
    [Scenario.O1; Scenario.O2] = Ret [Scenario.O1; Scenario.O2].
Proof.
  destruct filter_stages_idempotent as (Hp & Hd & Ho).
  split; [| split].
  - apply (Hp [Scenario.P1; Scenario.P2; Scenario.P3]). reflexivity.
  - apply (Hd _ _ _ [Scenario.D1; Scenario.D2; Scenario.D3]). reflexivity.
  - apply (Ho _ _ [Scenario.O1; Scenario.O2; Scenario.O3]). reflexivity.
Defined.

(** X19 — For a role that has an organization the patient stage returns the
    fetched list with the patients of other organizations taken out: order
    and repetitions are those of the fetched list. *)
Theorem filteredPatients_exact
    (patients : list fhirPatient) (practitionerRole : PractitionerRole) :
  role_organization practitionerRole <> None ->
  filteredPatients patients practitionerRole
  = Ret (List.filter (fun patient =>
           strictEq (managingOrganizationRef patient)
                    (organizationRef practitionerRole)) patients).
Proof.
  intros Ho. unfold filteredPatients. apply filter_pure. intros patient _.
  apply isPatientInPractitionerOrganization_Ret. split; [exact Ho | reflexivity].
Qed.

Lemma filteredPatients_exact_witness :
  filteredPatients [Scenario.P1; Scenario.P2; Scenario.P1; Scenario.P3] Scenario.R1
  = Ret [Scenario.P1; Scenario.P1].
Proof.
  exact (filteredPatients_exact [Scenario.P1; Scenario.P2; Scenario.P1; Scenario.P3]
           Scenario.R1 ltac:(discriminate)).
Defined.

(** ** The Patient handler's answer *)

(** X20 — For a caller with a role: when the credential is not empty, every
    fetched role has a practitioner reference, the caller's role has an
    organization and the Patient search returns a collection, the Patient
    handler does not fail and answers the bundle of the fetched patients of
    that organization, in the order fetched. *)
Theorem Patient_success
    (jwtDecode : string -> js JwtCustomPayload)
    (fetchJson : string -> option string -> js Bundle)
    (request : HttpRequest) (token : string)
    (practitionerRole : PractitionerRole) (patients : list fhirPatient) :
  token <> "" ->
  callerRole jwtDecode fetchJson request token practitionerRole ->
  (forall practitionerRoles,
     getRessources fetchJson PractitionerRole (Some token)
     = Ret (Some practitionerRoles, None) ->
     forall r, In r practitionerRoles -> referenceReadable (role_practitioner r)) ->
  role_organization practitionerRole <> None ->
  getRessources fetchJson fhirPatient (Some token) = Ret (Some patients, None) ->
  Patient jwtDecode fetchJson request
  = Ret (jsonBody (getSearchBundle (map RPatient
           (List.filter (fun patient =>
              strictEq (managingOrganizationRef patient)
                       (organizationRef practitionerRole)) patients)))).
Proof.
  intros Hne (payload & ps & p & rs & Hheader & Hdecode & Hps & Hp & Hrs & Hr)
         Hreadable Horg Hpatients.
  unfold Patient, withPractitionerRole, getAuthTokenAndUserId. rewrite Hheader.
  destruct token as [| c token]; [contradiction Hne; reflexivity |].
  cbn [ToBoolean negb ToString]. rewrite Hdecode.
  cbn [bind Monad_js Monad_either ret].
  destruct (getUserPractitioner_resolution fetchJson _ (oid payload) ps Hps)
    as (res & Hres & Hone & _).
  apply Hone in Hp. subst res. rewrite Hres.
  cbn [bind Monad_js Monad_either ret].
  destruct (getUserPractitionerRole_resolution fetchJson _ p rs Hrs)
    as [Htotal Hpartial].
  destruct (Htotal (Hreadable rs Hrs)) as [res Hres'].
  destruct (Hpartial res Hres') as [Hone' _].
  apply Hone' in Hr. subst res. rewrite Hres'.
  cbn [bind Monad_js Monad_either ret receiver].
  unfold fetchOrReturn. rewrite Hpatients.
  cbn [bind Monad_js Monad_either ret receiver].
  unfold filteredPatients.
  rewrite (filter_pure _ (fun patient =>
             strictEq (managingOrganizationRef patient)
                      (organizationRef practitionerRole))); [reflexivity |].
  intros patient _. apply isPatientInPractitionerOrganization_Ret.
  split; [exact Horg | reflexivity].
Qed.

Lemma Patient_success_witness :
  Patient Scenario.jwtDecode Scenario.fetchJson (Scenario.request "token-7")
  = Ret (jsonBody (getSearchBundle (map RPatient
           (List.filter (fun patient =>
              strictEq (managingOrganizationRef patient)
                       (organizationRef Scenario.R1))
              [Scenario.P1; Scenario.P2; Scenario.P3])))).
Proof.
  apply (Patient_success Scenario.jwtDecode Scenario.fetchJson
           (Scenario.request "token-7") "token-7" Scenario.R1).
  - discriminate.
  - exists {| oid := Some "oid-7" |},
      [Scenario.practitioner7; Scenario.practitioner8; Scenario.practitioner9],
      Scenario.practitioner7, [Scenario.R1; Scenario.R2; Scenario.R3].
    repeat split.
    + exists [], [Scenario.practitioner8; Scenario.practitioner9].
      split; [reflexivity |]. split.
      * eexists; eexists; split; [reflexivity |]. split; [left; reflexivity | reflexivity].
      * intros y [<- | [<- | []]] (ids & i & E & Hi & Hv);
          injection E as <-; destruct Hi as [<- | []]; discriminate Hv.
    + exists [], [Scenario.R2; Scenario.R3].
      split; [reflexivity |]. split.
      * eexists; split; reflexivity.
      * intros y [<- | [<- | []]] (s & Hs & He);
          injection Hs as <-; discriminate He.
  - intros rs Hrs r Hin. injection Hrs as <-.
    destruct Hin as [<- | [<- | [<- | []]]]; eexists; eexists; split; reflexivity.
  - discriminate.
  - reflexivity.
Defined.
